(** * ansible-lint: the [fqcn] rule and the default kind table

    A shallow embedding of

    - [src/ansiblelint/rules/fqcn.py]: [FQCNBuiltinsRule.matchtask],
      [FQCNBuiltinsRule.matchplay] and [FQCNBuiltinsRule.transform];
    - [src/ansiblelint/config.py]: the [DEFAULT_KINDS] table.

    Python strings are [string]; [dict[str, str]] used as a cache is a
    [gmap string string]; the ruamel [CommentedMap] a fix rewrites is an
    association list in insertion order; exceptions are values of [exn] and
    the mutable state a rule touches (the alias cache, the plugin loader's
    call trace, the logger) is threaded explicitly. *)

From Stdlib Require Import String Ascii List ZArith Bool Lia.
From stdpp Require Import base option gmap strings list.

Import ListNotations.
Local Open Scope string_scope.
Local Open Scope list_scope.

#[local] Arguments String.append _ _ : simpl nomatch.

(** ** Python string primitives used by the rule *)

Module PyStr.

(** [sep in s] for a one-character [sep]. *)
Fixpoint contains (sep : ascii) (s : string) : bool :=
  match s with
  | EmptyString => false
  | String a s' => Ascii.eqb a sep || contains sep s'
  end.

(** [s.split(sep)] for a one-character separator: the pieces between the
    occurrences of [sep], never the empty list. *)
Fixpoint split (sep : ascii) (s : string) : list string :=
  match s with
  | EmptyString => [EmptyString]
  | String a s' =>
      if Ascii.eqb a sep then EmptyString :: split sep s'
      else match split sep s' with
           | h :: t => String a h :: t
           | [] => [String a EmptyString]
           end
  end.

(** [s.count(c)] for a one-character [c]. *)
Fixpoint count (c : ascii) (s : string) : nat :=
  match s with
  | EmptyString => 0
  | String a s' => (if Ascii.eqb a c then 1 else 0) + count c s'
  end.

(** [s.startswith(p)]. *)
Definition startswith (s p : string) : bool := String.prefix p s.

(** [s[n:]]. *)
Fixpoint drop (n : nat) (s : string) : string :=
  match n, s with
  | O, _ => s
  | S n', String _ s' => drop n' s'
  | S _, EmptyString => EmptyString
  end.

(** [s.replace(old, new, 1)]: only the leftmost occurrence is replaced. *)
Fixpoint replace1 (old new s : string) : string :=
  if String.prefix old s then new +:+ drop (String.length old) s
  else match s with
       | EmptyString => EmptyString
       | String a s' => String a (replace1 old new s')
       end.

(** [s[:-2]]: everything but the last two characters (empty when [s] has
    at most two). *)
Definition slice_neg2 (s : string) : string :=
  String.substring 0 (String.length s - 2) s.

End PyStr.

(** ** Exceptions and results *)

Inductive exn : Type :=
| KeyError (key : string)
| IndexError
| TypeError
| UnboundLocalError (name : string).

Inductive result (A : Type) : Type :=
| Ok (a : A)
| Raise (e : exn).
Arguments Ok {A} a.
Arguments Raise {A} e.

#[export] Instance result_ret : MRet result := @Ok.
#[export] Instance result_bind : MBind result :=
  fun A B k r => match r with Ok a => k a | Raise e => Raise e end.

(** [l[i]] on a Python list. *)
Definition index {A} (l : list A) (i : nat) : result A :=
  match nth_error l i with
  | Some a => Ok a
  | None => Raise IndexError
  end.

(** ** Values held by the dictionaries handed to the rule ([Any]) *)

#[local] Set Warnings "-register-all".

Inductive value : Type :=
| VNone
| VStr (s : string)
| VInt (z : Z)
| VBool (b : bool)
| VSeq (l : list value)
| VMap (m : list (string * value)).

(** ** Ordered dictionaries with string keys

    Python [dict] and ruamel's [CommentedMap] keep their keys in insertion
    order and hold each key once. *)

Module Dict.
Section Ops.
Context {V : Type}.

Definition t := list (string * V).

Definition keys (d : list (string * V)) : list string := map fst d.

(** [k in d]. *)
Fixpoint mem (k : string) (d : list (string * V)) : bool :=
  match d with
  | [] => false
  | (k', _) :: d' => String.eqb k' k || mem k d'
  end.

(** [d[k]], raising [KeyError]. *)
Fixpoint get (k : string) (d : list (string * V)) : result V :=
  match d with
  | [] => Raise (KeyError k)
  | (k', v) :: d' => if String.eqb k' k then Ok v else get k d'
  end.

(** [d[k] = v]: an existing key keeps its position and takes the new
    value, a new key goes to the end. *)
Fixpoint set (k : string) (v : V) (d : list (string * V)) : list (string * V) :=
  match d with
  | [] => [(k, v)]
  | (k', v') :: d' =>
      if String.eqb k' k then (k', v) :: d' else (k', v') :: set k v d'
  end.

(** [d.popitem(last=False)]: removes and returns the first item. *)
Definition popitem_first (d : list (string * V))
  : result (string * V * list (string * V)) :=
  match d with
  | [] => Raise (KeyError "dictionary is empty")
  | kv :: d' => Ok (kv, d')
  end.
End Ops.
End Dict.

(** ** Findings

    [MatchError] and [Lintable] are declared elsewhere in the package; the
    rule reads and writes the attributes below. *)

Record Lintable : Type := mkLintable {
  path : string;
  kind : string;
}.

Record MatchError : Type := mkMatchError {
  message : string;
  details : string;
  filename : option Lintable;
  lineno : value;
  tag : string;
  fixed : bool;
}.

(** Modelled from the spec: [AnsibleLintRule.create_matcherror] is not among
    the sources.  A Finding carries the message, the optional remediation
    detail (empty when omitted), the file reference, the line number and the
    tag it was created with, and its [fixed] flag starts false. *)
Definition create_matcherror (message details : string)
    (filename : option Lintable) (lineno : value) (tag : string) : MatchError :=
  {| message := message; details := details; filename := filename;
     lineno := lineno; tag := tag; fixed := false |}.

(** [match.fixed = True]. *)
Definition set_fixed (m : MatchError) : MatchError :=
  {| message := message m; details := details m; filename := filename m;
     lineno := lineno m; tag := tag m; fixed := true |}.

(** ** The state a rule runs in

    [module_aliases] is assigned once, in the class body of
    [FQCNBuiltinsRule] (line 103); no method assigns an attribute of that
    name on [self], only items of the dictionary are written.  Every
    [self.module_aliases] therefore denotes the one dictionary object held by
    the class.  [loader_calls] records the arguments of
    [module_loader.find_plugin_with_context] in call order, [warnings] the
    records sent to [_logger.warning], and [instances] counts the rule
    objects constructed so far in the process. *)

Record world : Type := mkWorld {
  module_aliases : gmap string string;
  loader_calls : list string;
  warnings : list string;
  instances : nat;
}.

(** The class body: the cache as the module is imported. *)
Definition initial_module_aliases : gmap string string :=
  {[ "block/always/rescue" := "block/always/rescue" ]}.

Definition initial_world : world :=
  {| module_aliases := initial_module_aliases; loader_calls := [];
     warnings := []; instances := 0 |}.

(** A rule object; it has no attributes of its own that the rule reads. *)
Record rule : Type := mkRule { rule_id : nat }.

(** [FQCNBuiltinsRule()]: the class defines no [__init__], so constructing
    an instance leaves the class attributes as they are. *)
Definition new_rule (w : world) : rule * world :=
  (mkRule (instances w),
   {| module_aliases := module_aliases w; loader_calls := loader_calls w;
      warnings := warnings w; instances := S (instances w) |}).

(** Computations that read and write the [world] and may raise. *)
Definition M (A : Type) : Type := world -> result A * world.

Definition ret {A} (a : A) : M A := fun w => (Ok a, w).

Definition raise {A} (e : exn) : M A := fun w => (Raise e, w).

Definition bind {A B} (c : M A) (k : A -> M B) : M B :=
  fun w => match c w with
           | (Ok a, w') => k a w'
           | (Raise e, w') => (Raise e, w')
           end.

Definition lift {A} (r : result A) : M A := fun w => (r, w).

#[export] Instance M_ret : MRet M := @ret.
#[export] Instance M_bind : MBind M := fun A B k c => bind c k.

(** Field updates of the [world]. *)
Definition with_module_aliases (c : gmap string string) (w : world) : world :=
  {| module_aliases := c; loader_calls := loader_calls w;
     warnings := warnings w; instances := instances w |}.

Definition with_loader_call (name : string) (w : world) : world :=
  {| module_aliases := module_aliases w;
     loader_calls := loader_calls w ++ [name];
     warnings := warnings w; instances := instances w |}.

Definition with_warning (record : string) (w : world) : world :=
  {| module_aliases := module_aliases w; loader_calls := loader_calls w;
     warnings := warnings w ++ [record]; instances := instances w |}.

(** The dictionary [self.module_aliases] denotes: the class attribute. *)
Definition cache_of (self : rule) (w : world) : gmap string string :=
  module_aliases w.

(** [module in self.module_aliases]. *)
Definition in_module_aliases (self : rule) (module : string) : M bool :=
  fun w => (Ok (bool_decide (is_Some (cache_of self w !! module))), w).

(** [self.module_aliases[module]]. *)
Definition get_module_alias (self : rule) (module : string) : M string :=
  fun w => match cache_of self w !! module with
           | Some a => (Ok a, w)
           | None => (Raise (KeyError module), w)
           end.

(** [self.module_aliases[module] = target]. *)
Definition set_module_alias (self : rule) (module target : string) : M unit :=
  fun w => (Ok tt, with_module_aliases (<[module := target]> (cache_of self w)) w).

(** [_logger.warning(fmt, arg)] with the one [%s] of [fmt] filled in. *)
Definition logger_warning (record : string) : M unit :=
  fun w => (Ok tt, with_warning record w).

(** [task["action"]["__ansible_module_original__"]]: two subscriptions, the
    first on the task, the second on the mapping found there.  The rule
    treats the result as a [str]. *)
Definition task_module (task : list (string * value)) : result string :=
  match Dict.get "action" task with
  | Raise e => Raise e
  | Ok (VMap action) =>
      match Dict.get "__ansible_module_original__" action with
      | Raise e => Raise e
      | Ok (VStr module) => Ok module
      | Ok _ => Raise TypeError
      end
  | Ok _ => Raise TypeError
  end.

(** ** [FQCNBuiltinsRule.matchtask] *)

(** Lines 124-166, once [module_alias] is [self.module_aliases[module]]: the
    comparison of the name as written with its alias.  The source reads the
    cache entry again at lines 146 and 161; nothing writes to the cache in
    between. *)
Definition report (task : list (string * value)) (file : option Lintable)
    (module module_alias : string) : result (list MatchError) :=
  if negb (String.eqb module module_alias) then
    if PyStr.startswith module_alias "ansible.builtin" then
      let legacy_module :=
        PyStr.replace1 "ansible.builtin." "ansible.legacy." module_alias in
      if negb (String.eqb module legacy_module) then
        lineno ← Dict.get "__line__" task;
        Ok [create_matcherror
              ("Use FQCN for builtin module actions (" +:+ module +:+ ").")
              ("Use `" +:+ module_alias +:+ "` or `" +:+ legacy_module
                 +:+ "` instead.")
              file lineno "fqcn[action-core]"]
      else Ok []
    else
      if Nat.ltb (PyStr.count "."%char module) 2 then
        lineno ← Dict.get "__line__" task;
        Ok [create_matcherror
              ("Use FQCN for module actions, such `" +:+ module_alias +:+ "`.")
              ("Action `" +:+ module +:+ "` is not FQCN.")
              file lineno "fqcn[action]"]
      else if negb (PyStr.startswith module "community.general.")
              || PyStr.startswith module "community.network." then
        lineno ← Dict.get "__line__" task;
        Ok [create_matcherror
              ("You should use canonical module name `" +:+ module_alias
                 +:+ "` instead of `" +:+ module +:+ "`.")
              EmptyString
              file lineno "fqcn[canonical]"]
      else Ok []
  else Ok [].

(** The cache after line 122, for a name the loader resolves to [target]. *)
Definition cache_with_target (module target : string)
    (c : gmap string string) : gmap string string :=
  if bool_decide (is_Some (<[module := target]> c !! target))
  then <[module := target]> c
  else <[target := target]> (<[module := target]> c).

Section Loader.

(** [module_loader.find_plugin_with_context(name).resolved_fqcn]: the
    plugin loader of ansible-core, outside the package.  [None] is
    Python's [None]. *)
Variable resolved_fqcn : string -> option string.

(** The call to the loader, recorded in the trace. *)
Definition find_plugin_with_context (module : string) : M (option string) :=
  fun w => (Ok (resolved_fqcn module), with_loader_call module w).

(** Lines 113-122: fill the cache for [module].  The result is [false]
    when the function returns [[]] at line 120.  Line 116 stores [target]
    under [module] also when it is [None]; line 119 then overwrites that
    entry before anything reads it, so the unresolved branch is the single
    write of line 119. *)
Definition resolve_module (self : rule) (module : string) : M bool :=
  cached ← in_module_aliases self module;
  if cached : bool then mret true
  else
    target ← find_plugin_with_context module;
    match target with
    | None =>
        logger_warning ("Unable to resolve FQCN for module " +:+ module);;
        set_module_alias self module module;;
        mret false
    | Some target =>
        set_module_alias self module target;;
        known ← in_module_aliases self target;
        (if known : bool then mret tt
         else set_module_alias self target target);;
        mret true
    end.

Definition matchtask (self : rule) (task : list (string * value))
    (file : option Lintable) : M (list MatchError) :=
  module ← lift (task_module task);
  go_on ← resolve_module self module;
  if go_on : bool then
    module_alias ← get_module_alias self module;
    lift (report task file module module_alias)
  else mret [].

(** What the lookup of lines 113-122 settles on for [module]: the cached
    alias when there is one, else what the loader answers. *)
Definition resolves_to (w : world) (module target : string) : Prop :=
  match module_aliases w !! module with
  | Some alias => alias = target
  | None => resolved_fqcn module = Some target
  end.

(** What the cache holds while the rule is its only writer: under each
    name either the name itself or what the loader answers for it. *)
Definition cache_inv (c : gmap string string) : Prop :=
  forall k v, c !! k = Some v -> v = k \/ resolved_fqcn k = Some v.

(** Modelled from the spec: the engine's loop is not among the sources.
    Within a run it passes each task-like node to the task-level matcher,
    one after the other; [matchtasks] is the state after such a pass. *)
Fixpoint matchtasks (self : rule) (tasks : list (list (string * value)))
    (file : option Lintable) (w : world) : world :=
  match tasks with
  | [] => w
  | task :: tasks' =>
      matchtasks self tasks' file (snd (matchtask self task file w))
  end.

End Loader.

(** ** [FQCNBuiltinsRule.matchplay] *)

Section Constants.

(** [ansiblelint.constants.LINE_NUMBER_KEY], defined outside the sources
    at hand: the key under which the loader stores a node's line number. *)
Variable LINE_NUMBER_KEY : string.

Definition matchplay (self : rule) (file : Lintable)
    (data : list (string * value)) : result (list MatchError) :=
  if negb (String.eqb (kind file) "playbook") then Ok []
  else if Dict.mem "collections" data then
    lineno ← Dict.get LINE_NUMBER_KEY data;
    Ok [create_matcherror
          "Avoid `collections` keyword by using FQCN for all plugins, modules, roles and playbooks."
          EmptyString (Some file) lineno "fqcn[keyword]"]
  else Ok [].

End Constants.

(** ** [FQCNBuiltinsRule.transform] *)

Definition fixable_tags : list string :=
  ["fqcn[action-core]"; "fqcn[action]"; "fqcn[canonical]"].

(** Lines 193-204: the two action names, read back from the texts of the
    finding.  The chain of [if]/[elif] has no [else]; it is entered only
    with one of the three tags. *)
Definition parse_actions (m : MatchError) : result (string * string) :=
  if String.eqb (tag m) "fqcn[action-core]" then
    inner ← index (PyStr.split "("%char (message m)) 1;
    let current_action := PyStr.slice_neg2 inner in
    new_action ← index (PyStr.split "`"%char (details m)) 1;
    Ok (current_action, new_action)
  else if String.eqb (tag m) "fqcn[action]" then
    current_action ← index (PyStr.split "`"%char (details m)) 1;
    new_action ← index (PyStr.split "`"%char (message m)) 1;
    Ok (current_action, new_action)
  else if String.eqb (tag m) "fqcn[canonical]" then
    current_action ← index (PyStr.split "`"%char (message m)) 3;
    new_action ← index (PyStr.split "`"%char (message m)) 1;
    Ok (current_action, new_action)
  else Raise (UnboundLocalError "current_action").

Section Transform.
Context {V : Type}.

(** Lines 206-207, one turn of the loop: the first item leaves the
    mapping and comes back at the end, under [new_action] when its key is
    [current_action]. *)
Definition rebuild_step (current_action new_action : string)
    (target_task : list (string * V)) : result (list (string * V)) :=
  '(k, v, rest) ← Dict.popitem_first target_task;
  Ok (Dict.set (if String.eqb k current_action then new_action else k) v rest).

(** Line 205: [for _ in range(n)], with [n] fixed before the first turn. *)
Fixpoint rebuild (n : nat) (current_action new_action : string)
    (target_task : list (string * V)) : result (list (string * V)) :=
  match n with
  | O => Ok target_task
  | S n' =>
      target_task' ← rebuild_step current_action new_action target_task;
      rebuild n' current_action new_action target_task'
  end.

(** [target_task] is the node [self.seek(match.yaml_path, data)] returns
    ([seek] is [TransformMixin]'s); the fix mutates that node and the
    finding in place, the embedding returns both as they are afterwards. *)
Definition transform (self : rule) (m : MatchError)
    (target_task : list (string * V))
    : result (MatchError * list (string * V)) :=
  if bool_decide (tag m ∈ fixable_tags) then
    '(current_action, new_action) ← parse_actions m;
    target_task' ← rebuild (length target_task) current_action new_action
                     target_task;
    Ok (set_fixed m, target_task')
  else Ok (m, target_task).

End Transform.

(** ** [config.DEFAULT_KINDS] *)

Module Kinds.

(** The table of lines 38-76, in its order; each one-entry dictionary
    [{kind: pattern}] is a pair. *)
Definition DEFAULT_KINDS : list (string * string) :=
  [ ("jinja2", "**/*.j2");
    ("jinja2", "**/*.j2.*");
    ("yaml", ".github/**/*.{yaml,yml}");
    ("text", "**/templates/**/*.*");
    ("execution-environment", "**/execution-environment.yml");
    ("ansible-lint-config", "**/.ansible-lint");
    ("ansible-lint-config", "**/.config/ansible-lint.yml");
    ("ansible-navigator-config", "**/ansible-navigator.{yaml,yml}");
    ("inventory", "**/inventory/**.{yaml,yml}");
    ("requirements", "**/meta/requirements.{yaml,yml}");
    ("galaxy", "**/galaxy.yml");
    ("reno", "**/releasenotes/*/*.{yaml,yml}");
    ("vars", "**/{host_vars,group_vars,vars,defaults}/**/*.{yaml,yml}");
    ("tasks", "**/tasks/**/*.{yaml,yml}");
    ("rulebook", "**/rulebooks/*.{yml,yaml");
    ("playbook", "**/playbooks/*.{yml,yaml}");
    ("playbook", "**/*playbook*.{yml,yaml}");
    ("role", "**/roles/*/");
    ("handlers", "**/handlers/*.{yaml,yml}");
    ("test-meta", "**/tests/integration/targets/*/meta/main.{yaml,yml}");
    ("meta", "**/meta/main.{yaml,yml}");
    ("meta-runtime", "**/meta/runtime.{yaml,yml}");
    ("role-arg-spec", "**/meta/argument_specs.{yaml,yml}");
    ("yaml", ".config/molecule/config.{yaml,yml}");
    ("requirements", "**/molecule/*/{collections,requirements}.{yaml,yml}");
    ("yaml", "**/molecule/*/{base,molecule}.{yaml,yml}");
    ("requirements", "**/requirements.{yaml,yml}");
    ("playbook", "**/molecule/*/*.{yaml,yml}");
    ("yaml", "**/{.ansible-lint,.yamllint}");
    ("changelog", "**/changelogs/changelog.yaml");
    ("yaml", "**/*.{yaml,yml}");
    ("yaml", "**/.*.{yaml,yml}");
    ("sanity-ignore-file", "**/tests/sanity/ignore-*.txt") ].

(** Modelled from the spec: the pattern syntax is brace-alternation
    [{a,b,c}] and glob wildcards; the matcher itself is a library outside
    the sources.  A pattern is well formed when its braces pair up: no
    closing brace without an open group, no group inside a group, no
    group left open at the end.  [open] tells whether a group is open. *)
Fixpoint braces_paired (open : bool) (p : string) : bool :=
  match p with
  | EmptyString => negb open
  | String c p' =>
      if Ascii.eqb c "{" then negb open && braces_paired true p'
      else if Ascii.eqb c "}" then open && braces_paired false p'
      else braces_paired open p'
  end.

Definition well_formed (p : string) : bool := braces_paired false p.

(** Modelled from the spec: the alternatives of the group that starts
    right after an opening brace: [Some (alternatives, rest)] when a
    closing brace ends it, [None] when the pattern ends first. *)
Fixpoint group (cur : string) (p : string) : option (list string * string) :=
  match p with
  | EmptyString => None
  | String c p' =>
      if Ascii.eqb c "}" then Some ([cur], p')
      else if Ascii.eqb c "," then
        match group EmptyString p' with
        | Some (alts, rest) => Some (cur :: alts, rest)
        | None => None
        end
      else group (cur +:+ String c EmptyString) p'
  end.

(** Modelled from the spec: brace-alternation.  Each complete group
    stands for its alternatives; a brace that opens no complete group is an
    ordinary character. *)
Fixpoint expand (fuel : nat) (p : string) : list string :=
  match fuel with
  | O => [p]
  | S fuel' =>
      match p with
      | EmptyString => [EmptyString]
      | String c p' =>
          match (if Ascii.eqb c "{" then group EmptyString p' else None) with
          | Some (alts, rest) =>
              flat_map (fun a => map (fun r => a +:+ r) (expand fuel' rest)) alts
          | None => map (String c) (expand fuel' p')
          end
      end
  end.

Definition expand_braces (p : string) : list string :=
  expand (String.length p) p.

(** Modelled from the spec: glob wildcards on a [/]-separated path.  [*]
    stands for any run of characters within one component, [?] for one
    such character, and a component [**] for any number of directories.
    [start] tells whether the pattern is at the start of a component. *)
Fixpoint glob (start : bool) (p : string) (s : string) : bool :=
  match p with
  | EmptyString => match s with EmptyString => true | _ => false end
  | String c p' =>
      let star :=
        (fix star (s : string) : bool :=
           glob false p' s
           || match s with
              | String a s' => negb (Ascii.eqb a "/") && star s'
              | EmptyString => false
              end) in
      if Ascii.eqb c "*" then
        match start, p' with
        | true, String c1 (String c2 p'') =>
            if Ascii.eqb c1 "*" && Ascii.eqb c2 "/" then
              (fix dirs (at_start : bool) (s : string) : bool :=
                 (at_start && glob true p'' s)
                 || match s with
                    | String a s' => dirs (Ascii.eqb a "/") s'
                    | EmptyString => false
                    end) true s
            else star s
        | _, _ => star s
        end
      else
        match s with
        | String a s' =>
            if Ascii.eqb c "?" then negb (Ascii.eqb a "/") && glob false p' s'
            else Ascii.eqb c a && glob (Ascii.eqb c "/") p' s'
        | EmptyString => false
        end
  end.

Definition matches (pattern path : string) : bool :=
  existsb (fun p => glob true p path) (expand_braces pattern).

(** Modelled from the spec: [classify(path)] returns the kind of the first
    entry of the ordered table whose pattern matches, [None] when no entry
    does. *)
Fixpoint classify (table : list (string * string)) (path : string)
    : option string :=
  match table with
  | [] => None
  | (kind, pattern) :: table' =>
      if matches pattern path then Some kind else classify table' path
  end.

End Kinds.

(** ** Vocabulary of the statements *)

(** The mapping with [current_action] renamed to [new_action]: every item
    in its place, with its value. *)
Definition renamed {V} (current_action new_action : string)
    (d : list (string * V)) : list (string * V) :=
  map (fun kv => (if String.eqb (fst kv) current_action then new_action
                  else fst kv, snd kv)) d.

(** ** Names and loaders used in the examples *)

(** No backtick and no parenthesis: the characters the texts of a finding
    use as delimiters. *)
Definition plain (s : string) : bool :=
  negb (PyStr.contains "`" s) && negb (PyStr.contains "(" s)
  && negb (PyStr.contains ")" s).

(** A loader that knows four names. *)
Definition example_loader (name : string) : option string :=
  if String.eqb name "yum" then Some "ansible.builtin.yum"
  else if String.eqb name "shell" then Some "ansible.builtin.shell"
  else if String.eqb name "ansible.builtin.yum" then Some "ansible.builtin.yum"
  else if String.eqb name "ansible.builtin.shell" then Some "ansible.builtin.shell"
  else if String.eqb name "docker_container" then Some "community.docker.docker_container"
  else if String.eqb name "community.general.docker_container" then Some "community.docker.docker_container"
  else if String.eqb name "community.network.docker_container" then Some "community.docker.docker_container"
  else if String.eqb name "community.docker.docker_container" then Some "community.docker.docker_container"
  else None.

(** The normalised task of a module call at a given line. *)
Definition example_task (module : string) (line : Z) : list (string * value) :=
  [("action", VMap [("__ansible_module_original__", VStr module)]);
   ("__line__", VInt line)].

(** ** [config.py]: helpers around the options and the installation *)

Module Config.

(** The one exception the helpers raise themselves. *)
Inductive config_exn : Type :=
| RuntimeError (msg : string).

(** [d.get(k, default)]. *)
Definition get_or {V} (k : string) (default : V) (d : list (string * V)) : V :=
  match Dict.get k d with
  | Ok v => v
  | Raise _ => default
  end.

Section RuleConfig.

(** [str(x)] of the builtins, used by the f-string of the message. *)
Variable py_str : value -> string.

(** Lines 166-172, with [rules] the attribute [options.rules]. *)
Definition get_rule_config (rules : list (string * value)) (rule_id : string)
  : config_exn + list (string * value) :=
  let rule_config := get_or rule_id (VMap []) rules in
  match rule_config with
  | VMap m => inr m
  | _ =>
      inl (RuntimeError ("Invalid rule config for " +:+ rule_id +:+ ": "
                           +:+ py_str rule_config))
  end.

End RuleConfig.

(** Lines 176-185, the body of [ansible_collections_path]: the first of the
    two variable names found in [os.environ], the second name when neither
    is. *)
Fixpoint first_env_var (names : list string) (environ : gmap string string)
  : option string :=
  match names with
  | [] => None
  | env_var :: names' =>
      if bool_decide (is_Some (environ !! env_var)) then Some env_var
      else first_env_var names' environ
  end.

Definition ansible_collections_path_body (environ : gmap string string)
  : string :=
  match first_env_var ["ANSIBLE_COLLECTIONS_PATHS"; "ANSIBLE_COLLECTIONS_PATH"]
          environ with
  | Some env_var => env_var
  | None => "ANSIBLE_COLLECTIONS_PATH"
  end.

(** Line 175, [@lru_cache] on a function without arguments: the first
    result is kept and returned from then on.  [memo] is the cache of the
    decorator. *)
Definition ansible_collections_path (environ : gmap string string)
    (memo : option string) : string * option string :=
  match memo with
  | Some kept => (kept, memo)
  | None =>
      let r := ansible_collections_path_body environ in (r, Some r)
  end.

(** The calls of a process, each with the environment of its moment; the
    results in order. *)
Fixpoint ansible_collections_path_calls (environs : list (gmap string string))
    (memo : option string) : list string :=
  match environs with
  | [] => []
  | environ :: environs' =>
      let '(r, memo') := ansible_collections_path environ memo in
      r :: ansible_collections_path_calls environs' memo'
  end.

(** The attributes of the module [sys] that [in_venv] looks at;
    [real_prefix] and [base_prefix] may be missing. *)
Record sys_module : Type := mkSys {
  real_prefix : option string;
  base_prefix : option string;
  prefix : string;
}.

(** Lines 188-194. *)
Definition in_venv (sys : sys_module) (environ : gmap string string) : bool :=
  if bool_decide (is_Some (real_prefix sys))
     || bool_decide (is_Some (environ !! "CONDA_EXE"))
  then true
  else
    let pfx := match base_prefix sys with
               | Some b => b
               | None => prefix sys
               end in
    negb (String.eqb pfx (prefix sys)).

(** What the block under [try] (lines 212-232) meets in pip, which lies
    outside the package: a distribution with the paths
    [uninstallation_paths] yields for it, no distribution, an
    [AttributeError], or another exception, which the [except] clause of
    line 234 does not catch.  An exception comes before the distribution is
    found ([found = None]) or after line 227 has logged it.  [dist] and
    [exc] are the texts the log records show. *)
Inductive pip_probe : Type :=
| ProbeDist (dist : string) (paths : list string)
| ProbeNoDist
| ProbeAttributeError (found : option string) (exc : string)
| ProbeOtherError (found : option string) (exc : string).

(** A debug record, on the logger of the module ([_logger]) or on the root
    logger ([logging]). *)
Inductive debug_record : Type :=
| ModuleDebug (record : string)
| RootDebug (record : string).

(** Lines 228-229: [for _ in uninstallation_paths(dist): use_pip = True]. *)
Fixpoint any_path (paths : list string) (use_pip : bool) : bool :=
  match paths with
  | [] => use_pip
  | _ :: paths' => any_path paths' true
  end.

(** Lines 197-240.  [file] is [__file__] and [user_lib] is
    [os.path.expanduser("~/.local/lib")].  The result is the log written
    and either the exception that leaves the function ([inl]) or the
    command returned ([inr]). *)
Definition guess_install_method (sys : sys_module)
    (environ : gmap string string) (file user_lib : string)
    (probe : pip_probe) : list debug_record * (string + string) :=
  let package_name := "ansible-lint" in
  let '(log1, pip) :=
    if in_venv sys environ then
      ([ModuleDebug "Found virtualenv, assuming `pip3 install` will work."],
       "pip install --upgrade " +:+ package_name)
    else if PyStr.startswith file user_lib then
      ([ModuleDebug
          "Found --user installation, assuming `pip3 install --user` will work."],
       "pip3 install --user --upgrade " +:+ package_name)
    else ([], EmptyString) in
  let found_log (found : option string) :=
    match found with
    | Some dist => [RootDebug ("Found " +:+ dist +:+ " dist")]
    | None => []
    end in
  match probe with
  | ProbeDist dist paths =>
      let use_pip := any_path paths false in
      (log1 ++ found_log (Some dist),
       inr (if use_pip then pip else EmptyString))
  | ProbeNoDist =>
      (log1 ++ [RootDebug ("Skipping " +:+ package_name
                             +:+ " as it is not installed.")],
       inr EmptyString)
  | ProbeAttributeError found exc =>
      (log1 ++ found_log found ++ [RootDebug exc], inr EmptyString)
  | ProbeOtherError found exc => (log1 ++ found_log found, inl exc)
  end.

End Config.

(** ** Further vocabulary *)

(** Every alias the cache holds is itself a name of the cache. *)
Definition cache_closed (c : gmap string string) : Prop :=
  forall k v, c !! k = Some v -> is_Some (c !! v).

(** A loader that knows a builtin under its short and its legacy name. *)
Definition legacy_loader (name : string) : option string :=
  if String.eqb name "ansible.legacy.copy" then Some "ansible.builtin.copy"
  else if String.eqb name "copy" then Some "ansible.builtin.copy"
  else if String.eqb name "community.general.copy" then Some "ansible.builtin.copy"
  else None.

(** * Properties *)

(** ** Strings *)

Section StringFacts.

Lemma append_assoc (a b c : string) : (a +:+ b) +:+ c = a +:+ (b +:+ c).
Proof. induction a as [|x a IH]; simpl; [reflexivity | now rewrite IH]. Qed.

Lemma contains_append (c : ascii) (a b : string) :
  PyStr.contains c (a +:+ b) = PyStr.contains c a || PyStr.contains c b.
Proof.
  induction a as [|x a IH]; simpl; [reflexivity |].
  rewrite IH. now rewrite orb_assoc.
Qed.

Lemma split_nonempty (c : ascii) (s : string) : PyStr.split c s <> [].
Proof.
  destruct s as [|a s]; simpl; [discriminate |].
  destruct (Ascii.eqb a c); [discriminate |].
  destruct (PyStr.split c s); discriminate.
Qed.

(** A piece without the separator, followed by the separator, is the first
    piece of the split. *)
Lemma split_piece (c : ascii) (a rest : string) :
  PyStr.contains c a = false ->
  PyStr.split c (a +:+ String c rest) = a :: PyStr.split c rest.
Proof.
  induction a as [|x a IH]; simpl; intros H.
  - now rewrite Ascii.eqb_refl.
  - apply orb_false_iff in H as [Hx Ha].
    rewrite Hx, (IH Ha). reflexivity.
Qed.

Lemma split_last (c : ascii) (a : string) :
  PyStr.contains c a = false -> PyStr.split c a = [a].
Proof.
  induction a as [|x a IH]; simpl; intros H; [reflexivity |].
  apply orb_false_iff in H as [Hx Ha].
  rewrite Hx, (IH Ha). reflexivity.
Qed.

Lemma length_append (a b : string) :
  String.length (a +:+ b) = String.length a + String.length b.
Proof. induction a as [|x a IH]; simpl; [reflexivity | now rewrite IH]. Qed.

Lemma substring_append (a b : string) :
  String.substring 0 (String.length a) (a +:+ b) = a.
Proof.
  induction a as [|x a IH]; simpl.
  - destruct b; reflexivity.
  - now rewrite IH.
Qed.

(** [(a + ").")[:-2] == a]. *)
Lemma slice_neg2_append (a : string) (x y : ascii) :
  PyStr.slice_neg2 (a +:+ String x (String y EmptyString)) = a.
Proof.
  unfold PyStr.slice_neg2. rewrite length_append. simpl.
  replace (String.length a + 2 - 2) with (String.length a) by lia.
  apply substring_append.
Qed.

Lemma plain_spec (s : string) :
  plain s = true ->
  PyStr.contains "`" s = false /\ PyStr.contains "(" s = false
  /\ PyStr.contains ")" s = false.
Proof.
  unfold plain. rewrite !andb_true_iff, !negb_true_iff. tauto.
Qed.

End StringFacts.

(** ** [matchtask], step by step *)

Section MatchtaskFacts.

Variable resolved_fqcn : string -> option string.

Lemma resolve_module_eq (self : rule) (module : string) (w : world) :
  resolve_module resolved_fqcn self module w =
  match module_aliases w !! module with
  | Some _ => (Ok true, w)
  | None =>
      match resolved_fqcn module with
      | None =>
          (Ok false,
           with_module_aliases (<[module := module]> (module_aliases w))
             (with_warning ("Unable to resolve FQCN for module " +:+ module)
                (with_loader_call module w)))
      | Some target =>
          (Ok true,
           with_module_aliases
             (cache_with_target module target (module_aliases w))
             (with_loader_call module w))
      end
  end.
Proof.
  unfold resolve_module, mbind, M_bind, bind, in_module_aliases, cache_of.
  destruct (module_aliases w !! module) as [a|] eqn:Hc; simpl.
  - reflexivity.
  - unfold find_plugin_with_context.
    destruct (resolved_fqcn module) as [target|]; simpl.
    + unfold cache_with_target.
      destruct (bool_decide
                  (is_Some (<[module:=target]> (module_aliases w) !! target)));
        reflexivity.
    + reflexivity.
Qed.

Lemma matchtask_eq (self : rule) (task : list (string * value))
    (file : option Lintable) (w : world) (module : string) :
  task_module task = Ok module ->
  matchtask resolved_fqcn self task file w =
  match resolve_module resolved_fqcn self module w with
  | (Ok true, w') =>
      match module_aliases w' !! module with
      | Some alias => (report task file module alias, w')
      | None => (Raise (KeyError module), w')
      end
  | (Ok false, w') => (Ok [], w')
  | (Raise e, w') => (Raise e, w')
  end.
Proof.
  intros Hm. unfold matchtask, mbind, M_bind, bind, lift. rewrite Hm.
  destruct (resolve_module resolved_fqcn self module w) as [[[|]|e] w'];
    try reflexivity.
  unfold get_module_alias, cache_of.
  destruct (module_aliases w' !! module); reflexivity.
Qed.

(** A task without a readable action name leaves the state as it is. *)
Lemma matchtask_no_module (self : rule) (task : list (string * value))
    (file : option Lintable) (w : world) (e : exn) :
  task_module task = Raise e ->
  matchtask resolved_fqcn self task file w = (Raise e, w).
Proof.
  intros Hm. unfold matchtask, mbind, M_bind, bind, lift. now rewrite Hm.
Qed.

Lemma lookup_cache_with_target_module (module target : string)
    (c : gmap string string) :
  cache_with_target module target c !! module = Some target.
Proof.
  unfold cache_with_target. case_bool_decide as H.
  - apply lookup_insert_eq.
  - destruct (decide (target = module)) as [->|Hne].
    + apply lookup_insert_eq.
    + rewrite lookup_insert_ne by exact Hne. apply lookup_insert_eq.
Qed.

(** The alias [matchtask] compares the name with is the one [resolves_to]
    names. *)
Lemma matchtask_resolved (self : rule) (task : list (string * value))
    (file : option Lintable) (w : world) (module target : string) :
  task_module task = Ok module ->
  resolves_to resolved_fqcn w module target ->
  fst (matchtask resolved_fqcn self task file w) = report task file module target
  /\ module_aliases (snd (matchtask resolved_fqcn self task file w)) !! module
     = Some target.
Proof.
  intros Hm Hr. rewrite (matchtask_eq _ _ _ _ _ Hm), resolve_module_eq.
  unfold resolves_to in Hr.
  destruct (module_aliases w !! module) as [a|] eqn:Hc.
  - subst a. rewrite Hc. split; [reflexivity | exact Hc].
  - rewrite Hr. simpl. rewrite lookup_cache_with_target_module.
    split; [reflexivity |]. simpl. apply lookup_cache_with_target_module.
Qed.

End MatchtaskFacts.

(** ** Reading the names back from a finding *)

Section ParseFacts.

Variables (file : option Lintable) (line : value).

Lemma parse_action_core (module alias legacy : string) :
  PyStr.contains "(" module = false ->
  PyStr.contains "`" alias = false ->
  parse_actions
    (create_matcherror
       ("Use FQCN for builtin module actions (" +:+ module +:+ ").")
       ("Use `" +:+ alias +:+ "` or `" +:+ legacy +:+ "` instead.")
       file line "fqcn[action-core]")
  = Ok (module, alias).
Proof.
  intros Hm Ha. unfold parse_actions, create_matcherror. simpl.
  rewrite (split_last "(" (module +:+ ").")) by
    (rewrite contains_append, Hm; reflexivity).
  rewrite (split_piece "`" alias _ Ha). simpl.
  now rewrite slice_neg2_append.
Qed.

Lemma parse_action (module alias : string) :
  PyStr.contains "`" module = false ->
  PyStr.contains "`" alias = false ->
  parse_actions
    (create_matcherror
       ("Use FQCN for module actions, such `" +:+ alias +:+ "`.")
       ("Action `" +:+ module +:+ "` is not FQCN.")
       file line "fqcn[action]")
  = Ok (module, alias).
Proof.
  intros Hm Ha. unfold parse_actions, create_matcherror. simpl.
  rewrite (split_piece "`" module _ Hm), (split_piece "`" alias _ Ha).
  reflexivity.
Qed.

Lemma parse_canonical (module alias : string) :
  PyStr.contains "`" module = false ->
  PyStr.contains "`" alias = false ->
  parse_actions
    (create_matcherror
       ("You should use canonical module name `" +:+ alias
          +:+ "` instead of `" +:+ module +:+ "`.")
       EmptyString file line "fqcn[canonical]")
  = Ok (module, alias).
Proof.
  intros Hm Ha. unfold parse_actions, create_matcherror. simpl.
  rewrite (split_piece "`" alias _ Ha). simpl.
  rewrite (split_piece "`" module _ Hm). reflexivity.
Qed.

End ParseFacts.

(** Every finding [report] makes carries one of the three tags a fix
    handles, and its texts give back the two names. *)
Lemma report_parse (task : list (string * value)) (file : option Lintable)
    (module alias : string) (fs : list MatchError) (f : MatchError) :
  plain module = true -> plain alias = true ->
  report task file module alias = Ok fs -> In f fs ->
  In (tag f) fixable_tags /\ fixed f = false /\ module <> alias
  /\ parse_actions f = Ok (module, alias).
Proof.
  intros Hm Ha Hr Hin.
  apply plain_spec in Hm as (Hm1 & Hm2 & _).
  apply plain_spec in Ha as (Ha1 & _ & _).
  unfold report in Hr.
  destruct (String.eqb module alias) eqn:Heq; simpl in Hr;
    [injection Hr as <-; destruct Hin |].
  apply String.eqb_neq in Heq.
  destruct (PyStr.startswith alias "ansible.builtin").
  - destruct (negb (module =? _)%string);
      [| injection Hr as <-; destruct Hin].
    destruct (Dict.get "__line__" task) as [line|e]; [| discriminate].
    simpl in Hr. injection Hr as <-. destruct Hin as [<-|[]].
    repeat split; [simpl; tauto | exact Heq |].
    now apply parse_action_core.
  - destruct (Nat.ltb _ 2).
    + destruct (Dict.get "__line__" task) as [line|e]; [| discriminate].
      simpl in Hr. injection Hr as <-. destruct Hin as [<-|[]].
      repeat split; [simpl; tauto | exact Heq |].
      now apply parse_action.
    + destruct (negb _ || _);
        [| injection Hr as <-; destruct Hin].
      destruct (Dict.get "__line__" task) as [line|e]; [| discriminate].
      simpl in Hr. injection Hr as <-. destruct Hin as [<-|[]].
      repeat split; [simpl; tauto | exact Heq |].
      now apply parse_canonical.
Qed.

(** ** The rebuild loop of [transform] *)

Section RebuildFacts.
Context {V : Type}.
Implicit Types (d todo acc : list (string * V)).

(** Assigning under a key the mapping does not hold appends the item. *)
Lemma set_fresh (k : string) (v : V) d :
  ~ In k (Dict.keys d) -> Dict.set k v d = d ++ [(k, v)].
Proof.
  induction d as [|[k' v'] d IH]; simpl; intros Hk; [reflexivity |].
  destruct (String.eqb k' k) eqn:E.
  - apply String.eqb_eq in E. tauto.
  - rewrite IH by tauto. reflexivity.
Qed.

Lemma set_not_empty (k : string) (v : V) d : Dict.set k v d <> [].
Proof.
  destruct d as [|[k' v'] d]; simpl; [discriminate |].
  destruct (String.eqb k' k); discriminate.
Qed.

(** The loop runs to its end on every mapping: [popitem] never meets an
    empty one, since each turn puts an item back. *)
Lemma rebuild_total (n : nat) (cur new : string) d :
  (n <> 0 -> d <> []) -> exists d', rebuild n cur new d = Ok d'.
Proof.
  revert d. induction n as [|n IH]; intros d Hd; simpl; [eauto |].
  destruct d as [|[k v] rest]; [now destruct Hd |].
  simpl. apply IH. intros _. apply set_not_empty.
Qed.

Lemma rebuild_length_total (cur new : string) d :
  exists d', rebuild (length d) cur new d = Ok d'.
Proof.
  apply rebuild_total. destruct d; [intros H; now destruct H | discriminate].
Qed.

(** With [acc] the items already moved to the end: when no key still to
    move collides, after renaming, with a key of the mapping, the loop
    leaves the moved items followed by the renamed rest. *)
Lemma rebuild_spec (cur new : string) todo acc :
  NoDup (Dict.keys todo) ->
  ~ In new (Dict.keys todo) ->
  (forall k, In k (Dict.keys todo) ->
             ~ In (if String.eqb k cur then new else k) (Dict.keys acc)) ->
  rebuild (length todo) cur new (todo ++ acc)
  = Ok (acc ++ renamed cur new todo).
Proof.
  revert acc. induction todo as [|[k v] todo IH]; intros acc Hnd Hnew Hacc.
  - simpl. now rewrite app_nil_r.
  - simpl in Hnd, Hnew. apply NoDup_cons in Hnd as [Hk Hnd].
    rewrite list_elem_of_In in Hk.
    set (k' := if String.eqb k cur then new else k).
    assert (Hfresh : ~ In k' (Dict.keys (todo ++ acc))).
    { unfold Dict.keys. rewrite map_app, in_app_iff. intros [H|H].
      - subst k'. destruct (String.eqb k cur); tauto.
      - apply (Hacc k); [now left | exact H]. }
    cbn [length rebuild]. unfold rebuild_step. simpl.
    fold k'. rewrite (set_fresh _ _ _ Hfresh), <- app_assoc.
    rewrite IH.
    + simpl. fold k'. now rewrite <- app_assoc.
    + exact Hnd.
    + tauto.
    + intros k2 Hk2. unfold Dict.keys. rewrite map_app, in_app_iff.
      intros [H|[H|[]]].
      * apply (Hacc k2); [now right | exact H].
      * simpl in H. subst k'.
        assert (k2 <> k) by (intros ->; now apply Hk).
        destruct (String.eqb k cur) eqn:E1, (String.eqb k2 cur) eqn:E2;
          try apply String.eqb_eq in E1; try apply String.eqb_eq in E2;
          subst; try congruence; tauto.
Qed.

Lemma rebuild_renames (cur new : string) d :
  NoDup (Dict.keys d) -> ~ In new (Dict.keys d) ->
  rebuild (length d) cur new d = Ok (renamed cur new d).
Proof.
  intros Hnd Hnew.
  pose proof (rebuild_spec cur new d [] Hnd Hnew) as H.
  rewrite app_nil_r in H. apply H. intros k _ [].
Qed.

Lemma renamed_lookup (cur new : string) d (i : nat) (k : string) (v : V) :
  nth_error d i = Some (k, v) ->
  nth_error (renamed cur new d) i
  = Some (if String.eqb k cur then new else k, v).
Proof.
  intros H. unfold renamed. now rewrite nth_error_map, H.
Qed.

Lemma renamed_keys (cur new : string) d :
  Dict.keys (renamed cur new d)
  = map (fun k => if String.eqb k cur then new else k) (Dict.keys d).
Proof.
  unfold renamed, Dict.keys. rewrite !map_map. reflexivity.
Qed.

(** [transform] in terms of the loop, for a finding with a tag it fixes. *)
Lemma transform_fixable (self : rule) (m : MatchError) d (cur new : string) :
  In (tag m) fixable_tags ->
  parse_actions m = Ok (cur, new) ->
  transform self m d
  = match rebuild (length d) cur new d with
    | Ok d' => Ok (set_fixed m, d')
    | Raise e => Raise e
    end.
Proof.
  intros Ht Hp. unfold transform.
  rewrite bool_decide_eq_true_2 by now apply list_elem_of_In.
  rewrite Hp. simpl. destruct (rebuild _ _ _ _); reflexivity.
Qed.

End RebuildFacts.

(** ** The cache across calls *)

Section CacheFacts.

Variable resolved_fqcn : string -> option string.

Lemma cache_inv_initial : cache_inv resolved_fqcn initial_module_aliases.
Proof.
  intros k v H. unfold initial_module_aliases in H.
  apply lookup_singleton_Some in H as [<- <-]. now left.
Qed.

Lemma cache_inv_insert_self (c : gmap string string) (k : string) :
  cache_inv resolved_fqcn c -> cache_inv resolved_fqcn (<[k := k]> c).
Proof.
  intros Hc k' v. rewrite lookup_insert. case_decide as E.
  - intros [= <-]. left. now symmetry.
  - apply Hc.
Qed.

Lemma cache_inv_insert_target (c : gmap string string) (k t : string) :
  resolved_fqcn k = Some t ->
  cache_inv resolved_fqcn c -> cache_inv resolved_fqcn (<[k := t]> c).
Proof.
  intros Hr Hc k' v. rewrite lookup_insert. case_decide as E.
  - intros [= <-]. subst k'. now right.
  - apply Hc.
Qed.

(** What one call of [resolve_module] does to the cache and to the
    loader's trace. *)
Lemma resolve_module_step (self : rule) (module : string) (w : world) :
  let w' := snd (resolve_module resolved_fqcn self module w) in
  (forall k v, module_aliases w !! k = Some v ->
               module_aliases w' !! k = Some v)
  /\ is_Some (module_aliases w' !! module)
  /\ loader_calls w'
     = loader_calls w
       ++ (if bool_decide (is_Some (module_aliases w !! module)) then []
           else [module])
  /\ instances w' = instances w
  /\ (cache_inv resolved_fqcn (module_aliases w) ->
      cache_inv resolved_fqcn (module_aliases w')).
Proof.
  rewrite resolve_module_eq.
  destruct (module_aliases w !! module) as [a|] eqn:Hc.
  - simpl. rewrite Hc. simpl. rewrite app_nil_r. eauto 10.
  - destruct (resolved_fqcn module) as [t|] eqn:Hr; simpl.
    + repeat split.
      * intros k v Hk. unfold cache_with_target. case_bool_decide.
        -- rewrite lookup_insert_ne by congruence. exact Hk.
        -- rewrite !lookup_insert_ne; [exact Hk | congruence |].
           intros <-. match goal with H : ~ is_Some _ |- _ => apply H end.
           rewrite lookup_insert_ne by congruence. eauto.
      * rewrite lookup_cache_with_target_module. eauto.
      * intros Hinv. unfold cache_with_target. case_bool_decide.
        -- now apply cache_inv_insert_target.
        -- apply cache_inv_insert_self. now apply cache_inv_insert_target.
    + repeat split.
      * intros k v Hk. rewrite lookup_insert_ne by congruence. exact Hk.
      * rewrite lookup_insert_eq. eauto.
      * intros Hinv. now apply cache_inv_insert_self.
Qed.

(** The same for a whole call of [matchtask]: it touches the state only
    through [resolve_module]. *)
Lemma matchtask_world (self : rule) (task : list (string * value))
    (file : option Lintable) (w : world) :
  snd (matchtask resolved_fqcn self task file w)
  = match task_module task with
    | Ok module => snd (resolve_module resolved_fqcn self module w)
    | Raise _ => w
    end.
Proof.
  destruct (task_module task) as [module|e] eqn:Hm.
  - rewrite (matchtask_eq _ _ _ _ _ _ Hm).
    destruct (resolve_module resolved_fqcn self module w) as [[[|]|e] w'];
      try reflexivity.
    simpl. destruct (module_aliases w' !! module); reflexivity.
  - now rewrite (matchtask_no_module _ _ _ _ _ _ Hm).
Qed.

Lemma matchtask_step (self : rule) (task : list (string * value))
    (file : option Lintable) (w : world) :
  let w' := snd (matchtask resolved_fqcn self task file w) in
  (forall k v, module_aliases w !! k = Some v ->
               module_aliases w' !! k = Some v)
  /\ (forall module, task_module task = Ok module ->
                     is_Some (module_aliases w' !! module))
  /\ loader_calls w'
     = loader_calls w
       ++ match task_module task with
          | Ok module =>
              if bool_decide (is_Some (module_aliases w !! module)) then []
              else [module]
          | Raise _ => []
          end
  /\ instances w' = instances w
  /\ (cache_inv resolved_fqcn (module_aliases w) ->
      cache_inv resolved_fqcn (module_aliases w')).
Proof.
  rewrite matchtask_world.
  destruct (task_module task) as [module|e].
  - destruct (resolve_module_step self module w) as (H1 & H2 & H3 & H4 & H5).
    repeat split; try assumption. now intros ? [= <-].
  - simpl. rewrite app_nil_r. repeat split; try tauto. discriminate.
Qed.


Lemma matchtasks_monotone (self : rule) (tasks : list (list (string * value)))
    (file : option Lintable) (w : world) (k v : string) :
  module_aliases w !! k = Some v ->
  module_aliases (matchtasks resolved_fqcn self tasks file w) !! k = Some v.
Proof.
  revert w. induction tasks as [|t tasks IH]; intros w H; simpl; [exact H|].
  apply IH. now apply matchtask_step.
Qed.

Lemma matchtasks_cache_inv (self : rule) (tasks : list (list (string * value)))
    (file : option Lintable) (w : world) :
  cache_inv resolved_fqcn (module_aliases w) ->
  cache_inv resolved_fqcn
    (module_aliases (matchtasks resolved_fqcn self tasks file w)).
Proof.
  revert w. induction tasks as [|t tasks IH]; intros w H; simpl; [exact H|].
  apply IH. now apply matchtask_step.
Qed.

End CacheFacts.

(** * The properties of the specification *)

(** ** Scenario A: an unqualified builtin *)

(** C5.  A task whose action is written [yum], a name that resolves to
    [ansible.builtin.yum], gets exactly one finding; its tag is
    [fqcn[action-core]] and its detail proposes [ansible.builtin.yum] or
    [ansible.legacy.yum]. *)
Theorem yum_reports_action_core (resolved_fqcn : string -> option string)
    (self : rule) (task : list (string * value)) (file : option Lintable)
    (w : world) (line : value) :
  task_module task = Ok "yum" ->
  Dict.get "__line__" task = Ok line ->
  resolves_to resolved_fqcn w "yum" "ansible.builtin.yum" ->
  fst (matchtask resolved_fqcn self task file w)
  = Ok [create_matcherror
          "Use FQCN for builtin module actions (yum)."
          "Use `ansible.builtin.yum` or `ansible.legacy.yum` instead."
          file line "fqcn[action-core]"].
Proof.
  intros Hm Hl Hr.
  destruct (matchtask_resolved _ self task file w _ _ Hm Hr) as [-> _].
  unfold report. simpl. now rewrite Hl.
Qed.

Lemma yum_reports_action_core_witness :
  task_module (example_task "yum" 12) = Ok "yum"
  /\ resolves_to example_loader initial_world "yum" "ansible.builtin.yum"
  /\ fst (matchtask example_loader (mkRule 0) (example_task "yum" 12) None
            initial_world)
     = Ok [create_matcherror
             "Use FQCN for builtin module actions (yum)."
             "Use `ansible.builtin.yum` or `ansible.legacy.yum` instead."
             None (VInt 12) "fqcn[action-core]"].
Proof.
  assert (Hr : resolves_to example_loader initial_world "yum"
                 "ansible.builtin.yum") by (vm_compute; reflexivity).
  split; [reflexivity | split; [exact Hr |]].
  apply (yum_reports_action_core example_loader (mkRule 0)
           (example_task "yum" 12) None initial_world (VInt 12));
    [reflexivity | reflexivity | exact Hr].
Defined.

(** ** Unresolvable references *)

(** C7.  When the loader is asked for the action name of a task and has no
    canonical form for it, [matchtask] returns the empty list instead of
    raising, logs one warning that names the module, and records the name
    in the cache as its own alias. *)
Theorem unresolved_reference_recovered (resolved_fqcn : string -> option string)
    (self : rule) (task : list (string * value)) (file : option Lintable)
    (w : world) (module : string) :
  task_module task = Ok module ->
  module_aliases w !! module = None ->
  resolved_fqcn module = None ->
  let w' := snd (matchtask resolved_fqcn self task file w) in
  fst (matchtask resolved_fqcn self task file w) = Ok []
  /\ warnings w'
     = warnings w ++ ["Unable to resolve FQCN for module " +:+ module]
  /\ module_aliases w' = <[module := module]> (module_aliases w)
  /\ loader_calls w' = loader_calls w ++ [module].
Proof.
  intros Hm Hc Hr. simpl.
  rewrite (matchtask_eq _ _ _ _ _ _ Hm), resolve_module_eq, Hc, Hr.
  simpl. auto.
Qed.

Lemma unresolved_reference_recovered_witness :
  let task := example_task "no_such_module" 3 in
  let w' := snd (matchtask example_loader (mkRule 0) task None initial_world) in
  fst (matchtask example_loader (mkRule 0) task None initial_world) = Ok []
  /\ warnings w' = ["Unable to resolve FQCN for module no_such_module"]
  /\ module_aliases w' !! "no_such_module" = Some "no_such_module".
Proof.
  destruct (unresolved_reference_recovered example_loader (mkRule 0)
              (example_task "no_such_module" 3) None initial_world
              "no_such_module")
    as (H1 & H2 & H3 & _); [reflexivity | vm_compute; reflexivity
                           | reflexivity |].
  simpl. split; [exact H1 | split; [exact H2 |]].
  rewrite H3. apply lookup_insert_eq.
Defined.

(** A name that was not resolved earlier in the run is served from the
    cache afterwards: no finding, no further warning, no call. *)
Lemma unresolved_reference_cached (resolved_fqcn : string -> option string)
    (self : rule) (task : list (string * value)) (file : option Lintable)
    (w : world) (module : string) :
  task_module task = Ok module ->
  module_aliases w !! module = Some module ->
  matchtask resolved_fqcn self task file w = (Ok [], w).
Proof.
  intros Hm Hc.
  rewrite (matchtask_eq _ _ _ _ _ _ Hm), resolve_module_eq, Hc, Hc.
  unfold report. now rewrite String.eqb_refl.
Qed.

(** ** The two community namespaces *)

Lemma prefix_append (p s : string) :
  String.prefix p s = true -> exists r, s = p +:+ r.
Proof.
  revert s. induction p as [|a p IH]; intros s H.
  - now exists s.
  - destruct s as [|b s]; simpl in H; [discriminate |].
    destruct (ascii_dec a b) as [<-|]; [| discriminate].
    destruct (IH _ H) as [r ->]. now exists r.
Qed.

(** The half of the exclusion the code has: a name with three or more
    segments under [community.general.] gets no [fqcn[canonical]] finding,
    whatever its alias. *)
Lemma community_general_excluded (task : list (string * value))
    (file : option Lintable) (module alias : string) (fs : list MatchError) :
  PyStr.startswith module "community.general." = true ->
  report task file module alias = Ok fs ->
  forall f, In f fs -> tag f <> "fqcn[canonical]".
Proof.
  intros Hp Hr f Hin. unfold PyStr.startswith in Hp.
  destruct (prefix_append _ _ Hp) as [r ->].
  unfold report in Hr.
  destruct (negb _); [| injection Hr as <-; destruct Hin].
  destruct (PyStr.startswith alias "ansible.builtin").
  - destruct (negb _); [| injection Hr as <-; destruct Hin].
    destruct (Dict.get "__line__" task); [| discriminate].
    injection Hr as <-. destruct Hin as [<-|[]]. discriminate.
  - unfold PyStr.startswith in Hr. simpl in Hr.
    replace (String.prefix EmptyString r) with true in Hr by now destruct r.
    injection Hr as <-. destruct Hin.
Qed.

(** The other half: under [community.network.] the condition of line 156
    holds, and the finding is made. *)
Lemma community_network_reported (task : list (string * value))
    (file : option Lintable) (module alias : string) (line : value) :
  PyStr.startswith module "community.network." = true ->
  module <> alias ->
  PyStr.startswith alias "ansible.builtin" = false ->
  Dict.get "__line__" task = Ok line ->
  report task file module alias
  = Ok [create_matcherror
          ("You should use canonical module name `" +:+ alias
             +:+ "` instead of `" +:+ module +:+ "`.")
          EmptyString file line "fqcn[canonical]"].
Proof.
  intros Hp Hne Ha Hl. unfold PyStr.startswith in Hp.
  destruct (prefix_append _ _ Hp) as [r ->].
  unfold report. apply String.eqb_neq in Hne. rewrite Hne, Ha.
  unfold PyStr.startswith. simpl. now rewrite Hl.
Qed.

(** C4.  The code at the input [community.network.docker_container], a
    name of three segments whose canonical form is
    [community.docker.docker_container]: [matchtask] returns a
    [fqcn[canonical]] finding, where the same module under
    [community.general.] gets none. *)
Theorem community_network_gets_canonical_finding :
  fst (matchtask example_loader (mkRule 0)
         (example_task "community.network.docker_container" 4) None
         initial_world)
  = Ok [create_matcherror
          "You should use canonical module name `community.docker.docker_container` instead of `community.network.docker_container`."
          EmptyString None (VInt 4) "fqcn[canonical]"]
  /\ fst (matchtask example_loader (mkRule 0)
            (example_task "community.general.docker_container" 4) None
            initial_world)
     = Ok [].
Proof. split; vm_compute; reflexivity. Qed.

(** ** Scenario C: the [collections] keyword *)

(** C6.  In a playbook, play data with a [collections] key gets exactly one
    finding, tagged [fqcn[keyword]], at the line the loader recorded for the
    play; play data without the key gets the empty list. *)
Theorem matchplay_collections_keyword (LINE_NUMBER_KEY : string) (self : rule)
    (file : Lintable) (data : list (string * value)) :
  kind file = "playbook" ->
  (forall line, Dict.mem "collections" data = true ->
     Dict.get LINE_NUMBER_KEY data = Ok line ->
     matchplay LINE_NUMBER_KEY self file data
     = Ok [create_matcherror
             "Avoid `collections` keyword by using FQCN for all plugins, modules, roles and playbooks."
             EmptyString (Some file) line "fqcn[keyword]"])
  /\ (Dict.mem "collections" data = false ->
      matchplay LINE_NUMBER_KEY self file data = Ok []).
Proof.
  intros Hk. unfold matchplay. rewrite Hk. simpl. split.
  - intros line -> ->. reflexivity.
  - intros ->. reflexivity.
Qed.

Lemma matchplay_collections_keyword_witness :
  let file := mkLintable "playbooks/site.yml" "playbook" in
  matchplay "__line__" (mkRule 0) file
    [("hosts", VStr "all"); ("collections", VSeq [VStr "community.general"]);
     ("tasks", VSeq []); ("__line__", VInt 2)]
  = Ok [create_matcherror
          "Avoid `collections` keyword by using FQCN for all plugins, modules, roles and playbooks."
          EmptyString (Some file) (VInt 2) "fqcn[keyword]"]
  /\ matchplay "__line__" (mkRule 0) file
       [("hosts", VStr "all"); ("tasks", VSeq []); ("__line__", VInt 2)]
     = Ok [].
Proof.
  split.
  - apply (matchplay_collections_keyword "__line__" (mkRule 0)
             (mkLintable "playbooks/site.yml" "playbook")
             [("hosts", VStr "all");
              ("collections", VSeq [VStr "community.general"]);
              ("tasks", VSeq []); ("__line__", VInt 2)]);
      reflexivity.
  - apply (matchplay_collections_keyword "__line__" (mkRule 0)
             (mkLintable "playbooks/site.yml" "playbook")
             [("hosts", VStr "all"); ("tasks", VSeq []);
              ("__line__", VInt 2)]);
      reflexivity.
Defined.

(** Outside a playbook the rule says nothing about a play. *)
Lemma matchplay_other_kind (LINE_NUMBER_KEY : string) (self : rule)
    (file : Lintable) (data : list (string * value)) :
  kind file <> "playbook" -> matchplay LINE_NUMBER_KEY self file data = Ok [].
Proof.
  intros Hk. unfold matchplay. apply String.eqb_neq in Hk. now rewrite Hk.
Qed.

(** ** What a fix reads from a finding *)

(** C10.  For a module name and a resolved alias without backtick or
    parenthesis, every finding [matchtask] returns for the task carries one
    of the three tags [transform] handles, and [transform]'s reading of its
    message and details gives back exactly the name as written and the
    alias. *)
Theorem finding_texts_give_back_names (resolved_fqcn : string -> option string)
    (self : rule) (task : list (string * value)) (file : option Lintable)
    (w : world) (module alias : string) (fs : list MatchError)
    (f : MatchError) :
  task_module task = Ok module ->
  resolves_to resolved_fqcn w module alias ->
  plain module = true -> plain alias = true ->
  fst (matchtask resolved_fqcn self task file w) = Ok fs ->
  In f fs ->
  In (tag f) fixable_tags /\ parse_actions f = Ok (module, alias).
Proof.
  intros Hm Hr Hpm Hpa Hfs Hin.
  destruct (matchtask_resolved _ self task file w _ _ Hm Hr) as [E _].
  rewrite E in Hfs.
  destruct (report_parse _ _ _ _ _ _ Hpm Hpa Hfs Hin) as (H1 & _ & _ & H2).
  now split.
Qed.

(** One task for each of the three tags. *)
Lemma finding_texts_give_back_names_witness :
  (exists f,
     fst (matchtask example_loader (mkRule 0) (example_task "yum" 1) None
            initial_world) = Ok [f]
     /\ tag f = "fqcn[action-core]"
     /\ parse_actions f = Ok ("yum", "ansible.builtin.yum"))
  /\ (exists f,
        fst (matchtask example_loader (mkRule 0)
               (example_task "docker_container" 2) None initial_world)
        = Ok [f]
        /\ tag f = "fqcn[action]"
        /\ parse_actions f
           = Ok ("docker_container", "community.docker.docker_container"))
  /\ (exists f,
        fst (matchtask example_loader (mkRule 0)
               (example_task "community.network.docker_container" 3) None
               initial_world)
        = Ok [f]
        /\ tag f = "fqcn[canonical]"
        /\ parse_actions f
           = Ok ("community.network.docker_container",
                 "community.docker.docker_container")).
Proof.
  repeat split.
  - eexists. split; [vm_compute; reflexivity |]. split; [reflexivity |].
    eapply (finding_texts_give_back_names example_loader (mkRule 0)
              (example_task "yum" 1) None initial_world "yum"
              "ansible.builtin.yum");
      [reflexivity | vm_compute; reflexivity | reflexivity | reflexivity
      | vm_compute; reflexivity | now left].
  - eexists. split; [vm_compute; reflexivity |]. split; [reflexivity |].
    eapply (finding_texts_give_back_names example_loader (mkRule 0)
              (example_task "docker_container" 2) None initial_world
              "docker_container" "community.docker.docker_container");
      [reflexivity | vm_compute; reflexivity | reflexivity | reflexivity
      | vm_compute; reflexivity | now left].
  - eexists. split; [vm_compute; reflexivity |]. split; [reflexivity |].
    eapply (finding_texts_give_back_names example_loader (mkRule 0)
              (example_task "community.network.docker_container" 3) None
              initial_world "community.network.docker_container"
              "community.docker.docker_container");
      [reflexivity | vm_compute; reflexivity | reflexivity | reflexivity
      | vm_compute; reflexivity | now left].
Defined.

(** Without the restriction on the characters the reading goes wrong: for
    a name with an opening parenthesis the fix looks for another key. *)
Example parse_actions_parenthesis :
  parse_actions
    (create_matcherror "Use FQCN for builtin module actions (a(b)."
       "Use `ansible.builtin.x` or `ansible.legacy.x` instead."
       None (VInt 1) "fqcn[action-core]")
  = Ok (EmptyString, "ansible.builtin.x").
Proof. reflexivity. Qed.

(** ** Scenario D: the fix *)

(** [transform] always returns: neither the reading of the texts of a
    finding [report] made nor the loop raises. *)
Lemma transform_total {V} (self : rule) (m : MatchError)
    (d : list (string * V)) (cur new : string) :
  parse_actions m = Ok (cur, new) ->
  exists m' d', transform self m d = Ok (m', d').
Proof.
  intros Hp. unfold transform. case_bool_decide; [| eauto].
  rewrite Hp. simpl.
  destruct (rebuild_length_total cur new d) as [d' ->]. simpl. eauto.
Qed.

(** The flag goes up only together with the mapping the complete loop
    leaves. *)
Lemma transform_fixed_after_rebuild {V} (self : rule) (m m' : MatchError)
    (d d' : list (string * V)) :
  fixed m = false ->
  transform self m d = Ok (m', d') ->
  fixed m' = true ->
  exists cur new,
    parse_actions m = Ok (cur, new)
    /\ rebuild (length d) cur new d = Ok d'.
Proof.
  intros Hf Ht Hf'. unfold transform in Ht. case_bool_decide.
  - destruct (parse_actions m) as [[cur new]|]; [| discriminate].
    simpl in Ht.
    destruct (rebuild (length d) cur new d) as [d2|] eqn:E; [| discriminate].
    injection Ht as <- <-. eauto.
  - injection Ht as <- <-. congruence.
Qed.

(** C2, as the specification states it, fails on a mapping that already
    holds the replacement key: the assignment of line 207 then lands on
    that key, whose value is lost, and the renamed item takes a later
    place. *)
Lemma fix_overwrites_existing_key :
  let task := [("name", VStr "say hi"); ("shell", VStr "echo hi");
               ("when", VBool true);
               ("ansible.builtin.shell", VStr "echo ho")] in
  exists f task',
    fst (matchtask example_loader (mkRule 0) (example_task "shell" 5) None
           initial_world) = Ok [f]
    /\ tag f = "fqcn[action-core]"
    /\ transform (mkRule 0) f task = Ok (set_fixed f, task')
    /\ task' = [("name", VStr "say hi"); ("when", VBool true);
                ("ansible.builtin.shell", VStr "echo hi")]
    /\ Dict.get "ansible.builtin.shell" task = Ok (VStr "echo ho")
    /\ Dict.get "ansible.builtin.shell" task' <> Ok (VStr "echo ho")
    /\ nth_error task 2 = Some ("when", VBool true)
    /\ nth_error task' 2 <> Some ("when", VBool true).
Proof.
  eexists. eexists. split; [vm_compute; reflexivity |].
  split; [reflexivity |]. split; [vm_compute; reflexivity |].
  repeat split; discriminate.
Qed.

(** C2, amended.  On a task mapping that holds the offending action key and
    not yet the replacement, the fix of a [fqcn[action-core]] finding puts
    the replacement key where the offending key was: every item keeps its
    place and its value, only that key changes; the finding comes back with
    its flag set, together with the completely rebuilt mapping. *)
Theorem fix_renames_only_action_key {V} (self : rule) (m : MatchError)
    (target_task : list (string * V)) (current_action new_action : string) :
  tag m = "fqcn[action-core]" ->
  parse_actions m = Ok (current_action, new_action) ->
  NoDup (Dict.keys target_task) ->
  In current_action (Dict.keys target_task) ->
  ~ In new_action (Dict.keys target_task) ->
  exists target_task',
    transform self m target_task = Ok (set_fixed m, target_task')
    /\ length target_task' = length target_task
    /\ forall i k v,
         nth_error target_task i = Some (k, v) ->
         nth_error target_task' i
         = Some (if String.eqb k current_action then new_action else k, v).
Proof.
  intros Ht Hp Hnd _ Hnew. exists (renamed current_action new_action target_task).
  split; [| split].
  - rewrite (transform_fixable self m target_task _ _) by
      (rewrite ?Ht; simpl; eauto).
    now rewrite rebuild_renames.
  - unfold renamed. apply length_map.
  - intros i k v. apply renamed_lookup.
Qed.

Lemma fix_renames_only_action_key_witness :
  let m := create_matcherror "Use FQCN for builtin module actions (shell)."
             "Use `ansible.builtin.shell` or `ansible.legacy.shell` instead."
             None (VInt 5) "fqcn[action-core]" in
  transform (mkRule 0) m
    [("name", VStr "say hi"); ("shell", VStr "echo hi"); ("when", VBool true)]
  = Ok (set_fixed m,
        [("name", VStr "say hi"); ("ansible.builtin.shell", VStr "echo hi");
         ("when", VBool true)]).
Proof.
  destruct (fix_renames_only_action_key (mkRule 0)
              (create_matcherror "Use FQCN for builtin module actions (shell)."
                 "Use `ansible.builtin.shell` or `ansible.legacy.shell` instead."
                 None (VInt 5) "fqcn[action-core]")
              [("name", VStr "say hi"); ("shell", VStr "echo hi");
               ("when", VBool true)]
              "shell" "ansible.builtin.shell")
    as (t' & Ht & _ & _).
  - reflexivity.
  - reflexivity.
  - apply (bool_decide_unpack _). vm_compute. exact I.
  - simpl. tauto.
  - simpl. intros [H|[H|[H|[]]]]; discriminate.
  - simpl. rewrite Ht. vm_compute in Ht. injection Ht as <-. reflexivity.
Defined.

(** ** Idempotence of the fix *)

Section Idempotence.

Variable resolved_fqcn : string -> option string.

(** What the loader answers is canonical: asking again for an answer does
    not lead to yet another name. *)
Hypothesis resolved_is_canonical :
  forall name target target',
    resolved_fqcn name = Some target ->
    resolved_fqcn target = Some target' -> target' = target.




End Idempotence.



(** ** Memoisation of the resolution *)

Section Memoisation.

Variable resolved_fqcn : string -> option string.



End Memoisation.



(** ** Who owns the cache *)




(** In a process where no task has been matched yet, and only there, an
    instance starts from the initial cache. *)
Lemma first_instance_initial_cache :
  cache_of (fst (new_rule initial_world)) (snd (new_rule initial_world))
  = initial_module_aliases.
Proof. reflexivity. Qed.

(** ** The kind table *)

(** The entry of line 55 with its brace closed, as its neighbours have it. *)
Lemma rulebook_pattern_closed :
  Kinds.well_formed "**/rulebooks/*.{yml,yaml}" = true
  /\ Kinds.matches "**/rulebooks/*.{yml,yaml}" "rulebooks/demo.yml" = true
  /\ Kinds.matches "**/rulebooks/*.{yml,yaml}" "extensions/rulebooks/demo.yaml"
     = true.
Proof. vm_compute. repeat split. Qed.

(** C9.  The code at the input [rulebooks/demo.yml]: the pattern of the
    [rulebook] entry is the one pattern of the table whose braces do not
    pair up, it matches neither [.yml] nor [.yaml] files under
    [rulebooks/], and classification falls through to the generic [yaml]
    entry. *)
Theorem rulebook_pattern_malformed :
  filter (fun entry => negb (Kinds.well_formed (snd entry)))
    Kinds.DEFAULT_KINDS
  = [("rulebook", "**/rulebooks/*.{yml,yaml")]
  /\ Kinds.matches "**/rulebooks/*.{yml,yaml" "rulebooks/demo.yml" = false
  /\ Kinds.classify Kinds.DEFAULT_KINDS "rulebooks/demo.yml" = Some "yaml"
  /\ Kinds.classify Kinds.DEFAULT_KINDS "extensions/rulebooks/demo.yaml"
     = Some "yaml".
Proof. vm_compute. repeat split. Qed.

(** * Further properties of the code *)

(** ** [matchtask]: what it returns and what it raises *)

Section MatchtaskShape.

Variable resolved_fqcn : string -> option string.

Lemma matchtask_result (self : rule) (task : list (string * value))
    (file : option Lintable) (w : world) (module : string) :
  task_module task = Ok module ->
  (resolved_fqcn module = None /\ module_aliases w !! module = None
   /\ fst (matchtask resolved_fqcn self task file w) = Ok [])
  \/ exists alias,
       resolves_to resolved_fqcn w module alias
       /\ fst (matchtask resolved_fqcn self task file w)
          = report task file module alias.
Proof.
  intros Hm.
  destruct (module_aliases w !! module) as [a|] eqn:Hc.
  - right. exists a.
    assert (Hr : resolves_to resolved_fqcn w module a)
      by (unfold resolves_to; now rewrite Hc).
    split; [exact Hr |]. now apply matchtask_resolved.
  - destruct (resolved_fqcn module) as [t|] eqn:Hl.
    + right. exists t.
      assert (Hr : resolves_to resolved_fqcn w module t)
        by (unfold resolves_to; now rewrite Hc).
      split; [exact Hr |]. now apply matchtask_resolved.
    + left. repeat split.
      rewrite (matchtask_eq _ _ _ _ _ _ Hm), resolve_module_eq, Hc, Hl.
      reflexivity.
Qed.

Lemma report_shape (task : list (string * value)) (file : option Lintable)
    (module alias : string) (fs : list MatchError) :
  report task file module alias = Ok fs ->
  length fs <= 1
  /\ forall f, In f fs ->
       In (tag f) fixable_tags /\ fixed f = false /\ filename f = file
       /\ Dict.get "__line__" task = Ok (lineno f) /\ module <> alias.
Proof.
  unfold report. intros Hr.
  destruct (String.eqb module alias) eqn:Heq; simpl in Hr.
  { injection Hr as <-. simpl. split; [lia | intros f []]. }
  apply String.eqb_neq in Heq.
  assert (Hone : forall msg det tg,
             In tg fixable_tags ->
             Dict.get "__line__" task
             ≫= (fun lineno => Ok [create_matcherror msg det file lineno tg])
             = Ok fs ->
             length fs <= 1
             /\ forall f, In f fs ->
                  In (tag f) fixable_tags /\ fixed f = false
                  /\ filename f = file
                  /\ Dict.get "__line__" task = Ok (lineno f)
                  /\ module <> alias).
  { intros msg det tg Htg H.
    destruct (Dict.get "__line__" task) as [line|e]; [| discriminate].
    simpl in H. injection H as <-. simpl. split; [lia |].
    intros f [<-|[]]. simpl. auto. }
  assert (Hnil : Ok [] = Ok fs ->
                 length fs <= 1
                 /\ forall f, In f fs ->
                      In (tag f) fixable_tags /\ fixed f = false
                      /\ filename f = file
                      /\ Dict.get "__line__" task = Ok (lineno f)
                      /\ module <> alias).
  { intros [= <-]. simpl. split; [lia | intros f []]. }
  destruct (PyStr.startswith alias "ansible.builtin").
  - destruct (negb _); [| now apply Hnil].
    eapply Hone; [| exact Hr]. simpl. auto.
  - destruct (Nat.ltb _ 2).
    + eapply Hone; [| exact Hr]. simpl. auto.
    + destruct (negb _ || _); [| now apply Hnil].
      eapply Hone; [| exact Hr]. simpl. auto.
Qed.


(** X1.  Whatever the task and the state, [matchtask] returns at most one
    finding; a finding it returns carries one of the three tags a fix
    handles, the file it was given, the line number stored in the task, and
    a lowered [fixed] flag. *)
Theorem matchtask_at_most_one_finding (self : rule)
    (task : list (string * value)) (file : option Lintable) (w : world)
    (fs : list MatchError) :
  fst (matchtask resolved_fqcn self task file w) = Ok fs ->
  length fs <= 1
  /\ forall f, In f fs ->
       In (tag f) fixable_tags /\ fixed f = false /\ filename f = file
       /\ Dict.get "__line__" task = Ok (lineno f).
Proof.
  intros Hfs.
  destruct (task_module task) as [module|e] eqn:Hm.
  - destruct (matchtask_result self task file w module Hm)
      as [(_ & _ & E)|(alias & _ & E)]; rewrite E in Hfs.
    + injection Hfs as <-. simpl. split; [lia | intros f []].
    + destruct (report_shape _ _ _ _ _ Hfs) as [Hlen Hall].
      split; [exact Hlen |]. intros f Hin.
      destruct (Hall f Hin) as (H1 & H2 & H3 & H4 & _). auto.
  - rewrite (matchtask_no_module _ _ _ _ _ _ Hm) in Hfs. discriminate.
Qed.


(** X3.  A task whose action name the cache already holds leaves the whole
    state as it was: no call to the loader, no warning, no write. *)
Theorem matchtask_cache_hit_keeps_state (self : rule)
    (task : list (string * value)) (file : option Lintable) (w : world)
    (module : string) :
  task_module task = Ok module ->
  is_Some (module_aliases w !! module) ->
  snd (matchtask resolved_fqcn self task file w) = w.
Proof.
  intros Hm [a Ha].
  rewrite matchtask_world, Hm, resolve_module_eq, Ha. reflexivity.
Qed.

(** X4.  A call never changes or removes an entry of the cache, and the
    only names it can add are the action name of the task and what the
    loader answers for it. *)
Theorem matchtask_cache_frame (self : rule)
    (task : list (string * value)) (file : option Lintable) (w : world)
    (module : string) :
  task_module task = Ok module ->
  let w' := snd (matchtask resolved_fqcn self task file w) in
  (forall k v, module_aliases w !! k = Some v ->
               module_aliases w' !! k = Some v)
  /\ (forall k, k <> module -> resolved_fqcn module <> Some k ->
                module_aliases w' !! k = module_aliases w !! k).
Proof.
  intros Hm w'. split.
  - intros k v. now apply matchtask_step.
  - intros k Hk Ht. subst w'.
    rewrite matchtask_world, Hm, resolve_module_eq.
    destruct (module_aliases w !! module) as [a|] eqn:Hc; [reflexivity |].
    destruct (resolved_fqcn module) as [t|] eqn:Hl; simpl.
    + unfold cache_with_target. case_bool_decide.
      * now rewrite lookup_insert_ne by congruence.
      * rewrite !lookup_insert_ne by congruence. reflexivity.
    + now rewrite lookup_insert_ne by congruence.
Qed.

End MatchtaskShape.

Lemma matchtask_at_most_one_finding_witness :
  let fs := [create_matcherror
               "Use FQCN for builtin module actions (yum)."
               "Use `ansible.builtin.yum` or `ansible.legacy.yum` instead."
               None (VInt 12) "fqcn[action-core]"] in
  length fs <= 1
  /\ forall f, In f fs ->
       In (tag f) fixable_tags /\ fixed f = false /\ filename f = None
       /\ Dict.get "__line__" (example_task "yum" 12) = Ok (lineno f).
Proof.
  apply (matchtask_at_most_one_finding example_loader (mkRule 0)
           (example_task "yum" 12) None initial_world).
  vm_compute. reflexivity.
Defined.


Lemma matchtask_cache_hit_keeps_state_witness :
  snd (matchtask example_loader (mkRule 0)
         (example_task "block/always/rescue" 1) None initial_world)
  = initial_world.
Proof.
  apply (matchtask_cache_hit_keeps_state example_loader (mkRule 0)
           (example_task "block/always/rescue" 1) None initial_world
           "block/always/rescue" eq_refl).
  vm_compute. eauto.
Defined.

Lemma matchtask_cache_frame_witness :
  let w' := snd (matchtask example_loader (mkRule 0) (example_task "yum" 1)
                   None initial_world) in
  (forall k v, module_aliases initial_world !! k = Some v ->
               module_aliases w' !! k = Some v)
  /\ (forall k, k <> "yum" -> example_loader "yum" <> Some k ->
                module_aliases w' !! k = module_aliases initial_world !! k).
Proof.
  exact (matchtask_cache_frame example_loader (mkRule 0)
           (example_task "yum" 1) None initial_world "yum" eq_refl).
Defined.

(** ** Invariants of the cache *)

Section CacheInvariants.

Variable resolved_fqcn : string -> option string.

Lemma is_Some_insert (c : gmap string string) (a b x : string) :
  is_Some (c !! x) -> is_Some (<[a := b]> c !! x).
Proof.
  intros H. rewrite lookup_insert. case_decide; [eauto | exact H].
Qed.

Lemma cache_closed_insert (c : gmap string string) (k v : string) :
  cache_closed c -> is_Some (<[k := v]> c !! v) ->
  cache_closed (<[k := v]> c).
Proof.
  intros Hc Hv k' v'. rewrite lookup_insert. case_decide as E.
  - intros [= <-]. exact Hv.
  - intros H. apply is_Some_insert. now apply (Hc k').
Qed.

Lemma resolve_module_closed (self : rule) (module : string) (w : world) :
  cache_closed (module_aliases w) ->
  cache_closed
    (module_aliases (snd (resolve_module resolved_fqcn self module w))).
Proof.
  intros Hc. rewrite resolve_module_eq.
  destruct (module_aliases w !! module) as [a|] eqn:Ha; [exact Hc |].
  destruct (resolved_fqcn module) as [t|]; simpl.
  - unfold cache_with_target. case_bool_decide as Ht.
    + now apply cache_closed_insert.
    + intros k v. rewrite lookup_insert. case_decide as E1.
      * intros [= <-]. rewrite lookup_insert_eq. eauto.
      * rewrite lookup_insert. case_decide as E2.
        -- intros [= <-]. rewrite lookup_insert_eq. eauto.
        -- intros H. do 2 apply is_Some_insert. now apply (Hc k).
  - apply cache_closed_insert; [exact Hc |]. rewrite lookup_insert_eq. eauto.
Qed.

Lemma matchtasks_closed (self : rule) (file : option Lintable)
    (tasks : list (list (string * value))) (w : world) :
  cache_closed (module_aliases w) ->
  cache_closed (module_aliases (matchtasks resolved_fqcn self tasks file w)).
Proof.
  revert w. induction tasks as [|t tasks IH]; intros w H; simpl; [exact H |].
  apply IH. rewrite matchtask_world.
  destruct (task_module t); [now apply resolve_module_closed | exact H].
Qed.

(** X5.  Starting from the cache of the class body, after any pass over any
    tasks: each name of the cache is stored with itself or with what the
    loader answers for it, each alias stored is itself a name of the cache,
    and the entry of the class body is still there. *)
Theorem cache_invariants_from_initial (self : rule) (file : option Lintable)
    (tasks : list (list (string * value))) :
  let c := module_aliases
             (matchtasks resolved_fqcn self tasks file initial_world) in
  cache_inv resolved_fqcn c
  /\ cache_closed c
  /\ c !! "block/always/rescue" = Some "block/always/rescue".
Proof.
  simpl. split; [| split].
  - apply matchtasks_cache_inv. apply cache_inv_initial.
  - apply matchtasks_closed. intros k v H.
    unfold initial_world, initial_module_aliases in H. simpl in H.
    apply lookup_singleton_Some in H as [<- <-].
    unfold initial_world, initial_module_aliases. simpl.
    rewrite lookup_singleton_eq. eauto.
  - apply matchtasks_monotone. apply lookup_singleton_eq.
Qed.

End CacheInvariants.

(** ** [matchtask]: the branches *)

Section MatchtaskBranches.

Variable resolved_fqcn : string -> option string.

Lemma prefix_nil (s : string) : String.prefix EmptyString s = true.
Proof. now destruct s. Qed.

Lemma prefix_app (p s : string) : String.prefix p (p +:+ s) = true.
Proof.
  induction p as [|a p IH]; simpl; [apply prefix_nil |].
  destruct (ascii_dec a a); [exact IH | congruence].
Qed.

Lemma append_longer (p s : string) : p <> EmptyString -> s <> p +:+ s.
Proof.
  intros Hp E. apply (f_equal String.length) in E.
  rewrite length_append in E. destruct p; [congruence | simpl in E; lia].
Qed.

Lemma get_missing {V} (k : string) (d : list (string * V)) :
  Dict.mem k d = false -> Dict.get k d = Raise (KeyError k).
Proof.
  induction d as [|[k' v] d IH]; simpl; [reflexivity |].
  destruct (String.eqb k' k); simpl; [discriminate | exact IH].
Qed.

Lemma report_builtin (task : list (string * value)) (file : option Lintable)
    (m : string) :
  report task file m ("ansible.builtin." +:+ m)
  = Dict.get "__line__" task
    ≫= (fun lineno =>
          Ok [create_matcherror
                ("Use FQCN for builtin module actions (" +:+ m +:+ ").")
                ("Use `" +:+ ("ansible.builtin." +:+ m) +:+ "` or `"
                   +:+ ("ansible.legacy." +:+ m) +:+ "` instead.")
                file lineno "fqcn[action-core]"]).
Proof.
  unfold report.
  assert (E1 : String.eqb m ("ansible.builtin." +:+ m) = false)
    by (apply String.eqb_neq, append_longer; discriminate).
  assert (E2 : String.eqb m ("ansible.legacy." +:+ m) = false)
    by (apply String.eqb_neq, append_longer; discriminate).
  rewrite E1. unfold PyStr.startswith. simpl.
  rewrite (prefix_nil m). simpl in E2. rewrite E2. reflexivity.
Qed.

(** X6.  Any name [m] that resolves to [ansible.builtin.m] gets exactly one
    finding, tagged [fqcn[action-core]], whose message quotes [m] and whose
    details propose [ansible.builtin.m] and [ansible.legacy.m]. *)
Theorem builtin_name_reports_action_core (self : rule)
    (task : list (string * value)) (file : option Lintable) (w : world)
    (m : string) (line : value) :
  task_module task = Ok m ->
  Dict.get "__line__" task = Ok line ->
  resolves_to resolved_fqcn w m ("ansible.builtin." +:+ m) ->
  fst (matchtask resolved_fqcn self task file w)
  = Ok [create_matcherror
          ("Use FQCN for builtin module actions (" +:+ m +:+ ").")
          ("Use `" +:+ ("ansible.builtin." +:+ m) +:+ "` or `"
             +:+ ("ansible.legacy." +:+ m) +:+ "` instead.")
          file line "fqcn[action-core]"].
Proof.
  intros Hm Hl Hr.
  destruct (matchtask_resolved _ self task file w _ _ Hm Hr) as [-> _].
  rewrite report_builtin, Hl. reflexivity.
Qed.

(** X7.  A task written with the legacy spelling [ansible.legacy.n] of a
    name that resolves to [ansible.builtin.n] gets no finding. *)
Theorem legacy_spelling_not_reported (self : rule)
    (task : list (string * value)) (file : option Lintable) (w : world)
    (n : string) :
  task_module task = Ok ("ansible.legacy." +:+ n) ->
  resolves_to resolved_fqcn w ("ansible.legacy." +:+ n)
    ("ansible.builtin." +:+ n) ->
  fst (matchtask resolved_fqcn self task file w) = Ok [].
Proof.
  intros Hm Hr.
  destruct (matchtask_resolved _ self task file w _ _ Hm Hr) as [-> _].
  unfold report, PyStr.startswith. simpl.
  rewrite (prefix_nil n). simpl. now rewrite String.eqb_refl.
Qed.

(** X9.  Whatever the state and the alias, a task whose action name begins
    with [community.general.] never gets a [fqcn[canonical]] finding. *)
Theorem community_general_never_canonical (self : rule)
    (task : list (string * value)) (file : option Lintable) (w : world)
    (m : string) (fs : list MatchError) :
  task_module task = Ok m ->
  PyStr.startswith m "community.general." = true ->
  fst (matchtask resolved_fqcn self task file w) = Ok fs ->
  forall f, In f fs -> tag f <> "fqcn[canonical]".
Proof.
  intros Hm Hp Hfs f Hin.
  destruct (matchtask_result resolved_fqcn self task file w m Hm)
    as [(_ & _ & E)|(alias & _ & E)]; rewrite E in Hfs.
  - injection Hfs as <-. destruct Hin.
  - now apply (community_general_excluded task file m alias fs Hp Hfs).
Qed.

(** X10.  A name with fewer than two dots whose alias differs from it and
    is not under [ansible.builtin] gets exactly one finding, tagged
    [fqcn[action]], which quotes the alias in its message and the name in
    its details. *)
Theorem short_name_reports_action (self : rule)
    (task : list (string * value)) (file : option Lintable) (w : world)
    (m alias : string) (line : value) :
  task_module task = Ok m ->
  Dict.get "__line__" task = Ok line ->
  resolves_to resolved_fqcn w m alias ->
  m <> alias ->
  PyStr.startswith alias "ansible.builtin" = false ->
  PyStr.count "." m < 2 ->
  fst (matchtask resolved_fqcn self task file w)
  = Ok [create_matcherror
          ("Use FQCN for module actions, such `" +:+ alias +:+ "`.")
          ("Action `" +:+ m +:+ "` is not FQCN.")
          file line "fqcn[action]"].
Proof.
  intros Hm Hl Hr Hne Hb Hc.
  destruct (matchtask_resolved _ self task file w _ _ Hm Hr) as [-> _].
  unfold report. apply String.eqb_neq in Hne. rewrite Hne, Hb. simpl.
  apply Nat.ltb_lt in Hc. rewrite Hc, Hl. reflexivity.
Qed.

End MatchtaskBranches.

Lemma builtin_name_reports_action_core_witness :
  fst (matchtask example_loader (mkRule 0) (example_task "shell" 8) None
         initial_world)
  = Ok [create_matcherror
          ("Use FQCN for builtin module actions (" +:+ "shell" +:+ ").")
          ("Use `" +:+ ("ansible.builtin." +:+ "shell") +:+ "` or `"
             +:+ ("ansible.legacy." +:+ "shell") +:+ "` instead.")
          None (VInt 8) "fqcn[action-core]"].
Proof.
  apply (builtin_name_reports_action_core example_loader (mkRule 0)
           (example_task "shell" 8) None initial_world "shell" (VInt 8));
    [reflexivity | reflexivity | vm_compute; reflexivity].
Defined.

Lemma legacy_spelling_not_reported_witness :
  fst (matchtask legacy_loader (mkRule 0)
         (example_task ("ansible.legacy." +:+ "copy") 2) None initial_world)
  = Ok [].
Proof.
  apply (legacy_spelling_not_reported legacy_loader (mkRule 0)
           (example_task ("ansible.legacy." +:+ "copy") 2) None initial_world
           "copy");
    [reflexivity | vm_compute; reflexivity].
Defined.

Lemma community_general_never_canonical_witness :
  let f := create_matcherror
             "Use FQCN for builtin module actions (community.general.copy)."
             "Use `ansible.builtin.copy` or `ansible.legacy.copy` instead."
             None (VInt 4) "fqcn[action-core]" in
  fst (matchtask legacy_loader (mkRule 0)
         (example_task "community.general.copy" 4) None initial_world)
  = Ok [f]
  /\ forall f', In f' [f] -> tag f' <> "fqcn[canonical]".
Proof.
  simpl.
  assert (E : fst (matchtask legacy_loader (mkRule 0)
                     (example_task "community.general.copy" 4) None
                     initial_world)
              = Ok [create_matcherror
                      "Use FQCN for builtin module actions (community.general.copy)."
                      "Use `ansible.builtin.copy` or `ansible.legacy.copy` instead."
                      None (VInt 4) "fqcn[action-core]"])
    by (vm_compute; reflexivity).
  split; [exact E |].
  exact (community_general_never_canonical legacy_loader (mkRule 0)
           (example_task "community.general.copy" 4) None initial_world
           "community.general.copy" _ eq_refl eq_refl E).
Defined.

Lemma short_name_reports_action_witness :
  fst (matchtask example_loader (mkRule 0)
         (example_task "docker_container" 6) None initial_world)
  = Ok [create_matcherror
          ("Use FQCN for module actions, such `"
             +:+ "community.docker.docker_container" +:+ "`.")
          ("Action `" +:+ "docker_container" +:+ "` is not FQCN.")
          None (VInt 6) "fqcn[action]"].
Proof.
  apply (short_name_reports_action example_loader (mkRule 0)
           (example_task "docker_container" 6) None initial_world
           "docker_container" "community.docker.docker_container" (VInt 6));
    [reflexivity | reflexivity | vm_compute; reflexivity | discriminate
    | reflexivity | vm_compute; lia].
Defined.

(** ** [matchplay]: what it returns and what it raises *)

(** X11.  [matchplay] returns at most one finding, and returns one only for
    a playbook whose play data has a [collections] key; the finding is
    tagged [fqcn[keyword]], names the file, and carries the line number
    stored in the play data. *)
Theorem matchplay_at_most_one_finding (LINE_NUMBER_KEY : string) (self : rule)
    (file : Lintable) (data : list (string * value)) (fs : list MatchError) :
  matchplay LINE_NUMBER_KEY self file data = Ok fs ->
  length fs <= 1
  /\ forall f, In f fs ->
       tag f = "fqcn[keyword]" /\ fixed f = false /\ filename f = Some file
       /\ kind file = "playbook" /\ Dict.mem "collections" data = true
       /\ Dict.get LINE_NUMBER_KEY data = Ok (lineno f).
Proof.
  unfold matchplay. intros H.
  destruct (String.eqb (kind file) "playbook") eqn:Hk; simpl in H.
  - apply String.eqb_eq in Hk.
    destruct (Dict.mem "collections" data) eqn:Hc.
    + destruct (Dict.get LINE_NUMBER_KEY data) as [line|e]; [| discriminate].
      simpl in H. injection H as <-. simpl. split; [lia |].
      intros f [<-|[]]. simpl. auto 10.
    + injection H as <-. simpl. split; [lia | intros f []].
  - injection H as <-. simpl. split; [lia | intros f []].
Qed.

Lemma matchplay_at_most_one_finding_witness :
  let file := mkLintable "playbooks/site.yml" "playbook" in
  let data := [("hosts", VStr "all");
               ("collections", VSeq [VStr "community.general"]);
               ("__line__", VInt 2)] in
  let f := create_matcherror
             "Avoid `collections` keyword by using FQCN for all plugins, modules, roles and playbooks."
             EmptyString (Some file) (VInt 2) "fqcn[keyword]" in
  length [f] <= 1
  /\ forall f', In f' [f] ->
       tag f' = "fqcn[keyword]" /\ fixed f' = false
       /\ filename f' = Some file
       /\ kind file = "playbook" /\ Dict.mem "collections" data = true
       /\ Dict.get "__line__" data = Ok (lineno f').
Proof.
  apply (matchplay_at_most_one_finding "__line__" (mkRule 0)
           (mkLintable "playbooks/site.yml" "playbook")
           [("hosts", VStr "all");
            ("collections", VSeq [VStr "community.general"]);
            ("__line__", VInt 2)]).
  reflexivity.
Defined.

(** X12.  [matchplay] raises exactly when it is about to report and the
    play data has no entry under the line-number key: the exception is the
    [KeyError] of that subscription.  For a file of another kind, or play
    data without [collections], it never raises. *)
Theorem matchplay_raises_iff_line_missing (LINE_NUMBER_KEY : string)
    (self : rule) (file : Lintable) (data : list (string * value)) (e : exn) :
  matchplay LINE_NUMBER_KEY self file data = Raise e
  <-> kind file = "playbook" /\ Dict.mem "collections" data = true
      /\ Dict.mem LINE_NUMBER_KEY data = false
      /\ e = KeyError LINE_NUMBER_KEY.
Proof.
  unfold matchplay. split.
  - intros H.
    destruct (String.eqb (kind file) "playbook") eqn:Hk; simpl in H;
      [| discriminate].
    apply String.eqb_eq in Hk.
    destruct (Dict.mem "collections" data) eqn:Hc; [| discriminate].
    destruct (Dict.mem LINE_NUMBER_KEY data) eqn:Hl.
    + exfalso. clear Hc Hk. induction data as [|[k v] data IH]; simpl in *.
      * discriminate.
      * destruct (String.eqb k LINE_NUMBER_KEY); simpl in *;
          [discriminate | now apply IH].
    + rewrite (get_missing _ _ Hl) in H. simpl in H.
      injection H as <-. auto.
  - intros (Hk & Hc & Hl & ->).
    rewrite Hk, Hc, (get_missing _ _ Hl). reflexivity.
Qed.

(** ** [transform]: other tags, failures, bounds *)

Section TransformFacts.
Context {V : Type}.
Implicit Types (d todo acc : list (string * V)).

(** X13.  A finding with any other tag, [fqcn[keyword]] included, is left
    alone: the mapping is not touched and the flag is not set. *)
Theorem transform_ignores_other_tags (self : rule) (m : MatchError) d :
  ~ In (tag m) fixable_tags -> transform self m d = Ok (m, d).
Proof.
  intros Ht. unfold transform.
  rewrite bool_decide_eq_false_2; [reflexivity |].
  now rewrite list_elem_of_In.
Qed.

Lemma set_length (k : string) (v : V) d :
  length (Dict.set k v d) <= S (length d).
Proof.
  induction d as [|[k' v'] d IH]; simpl; [lia |].
  destruct (String.eqb k' k); simpl; lia.
Qed.

Lemma set_values (k : string) (v : V) d (x : V) :
  In x (map snd (Dict.set k v d)) -> x = v \/ In x (map snd d).
Proof.
  induction d as [|[k' v'] d IH]; simpl.
  - intros [<-|[]]. now left.
  - destruct (String.eqb k' k); simpl; intros [<-|H]; auto.
    destruct (IH H); auto.
Qed.

Lemma rebuild_bounds (n : nat) (cur new : string) d d' :
  rebuild n cur new d = Ok d' ->
  length d' <= length d
  /\ (forall x, In x (map snd d') -> In x (map snd d))
  /\ (d <> [] -> d' <> []).
Proof.
  revert d. induction n as [|n IH]; intros d H; simpl in H.
  - injection H as <-. auto.
  - destruct d as [|[k v] rest]; [discriminate |]. simpl in H.
    destruct (IH _ H) as (Hlen & Hval & Hne).
    split; [| split].
    + pose proof (set_length (if String.eqb k cur then new else k) v rest).
      simpl. lia.
    + intros x Hx. apply Hval, set_values in Hx.
      destruct Hx as [->|Hx]; simpl; auto.
    + intros _. apply Hne, set_not_empty.
Qed.

(** X14.  Once the texts of the finding have been read, the fix cannot
    fail, whatever the mapping, colliding keys and the empty mapping
    included: it returns a mapping with no more items than before, with no
    value that was not there, and not empty unless it was. *)
Theorem transform_never_fails_nor_grows (self : rule) (m : MatchError) d
    (cur new : string) :
  parse_actions m = Ok (cur, new) ->
  exists m' d',
    transform self m d = Ok (m', d')
    /\ length d' <= length d
    /\ (forall x, In x (map snd d') -> In x (map snd d))
    /\ (d <> [] -> d' <> []).
Proof.
  intros Hp. unfold transform. case_bool_decide.
  - rewrite Hp. simpl.
    destruct (rebuild_length_total cur new d) as [d' E]. rewrite E. simpl.
    exists (set_fixed m), d'. split; [reflexivity |].
    now apply (rebuild_bounds _ _ _ _ _ E).
  - exists m, d. auto.
Qed.

Lemma rebuild_absent (cur new : string) todo acc :
  NoDup (Dict.keys todo) ->
  ~ In cur (Dict.keys todo) ->
  (forall k, In k (Dict.keys todo) -> ~ In k (Dict.keys acc)) ->
  rebuild (length todo) cur new (todo ++ acc) = Ok (acc ++ todo).
Proof.
  revert acc. induction todo as [|[k v] todo IH]; intros acc Hnd Hcur Hacc.
  - simpl. now rewrite app_nil_r.
  - simpl in Hnd, Hcur. apply NoDup_cons in Hnd as [Hk Hnd].
    rewrite list_elem_of_In in Hk.
    assert (Hkc : String.eqb k cur = false)
      by (apply String.eqb_neq; intros ->; tauto).
    cbn [length rebuild]. unfold rebuild_step. simpl. rewrite Hkc.
    rewrite set_fresh.
    + rewrite <- app_assoc, IH.
      * now rewrite <- app_assoc.
      * exact Hnd.
      * tauto.
      * intros k2 Hk2. unfold Dict.keys. rewrite map_app, in_app_iff.
        intros [H|[H|[]]].
        -- apply (Hacc k2); [now right | exact H].
        -- simpl in H. subst k2. tauto.
    + unfold Dict.keys. rewrite map_app, in_app_iff. intros [H|H].
      * tauto.
      * apply (Hacc k); [now left | exact H].
Qed.

(** X15.  When the name read from the finding is not a key of the mapping,
    the fix leaves the mapping exactly as it was, and sets the flag all the
    same. *)
Theorem transform_absent_key_still_flags (self : rule) (m : MatchError) d
    (cur new : string) :
  In (tag m) fixable_tags ->
  parse_actions m = Ok (cur, new) ->
  NoDup (Dict.keys d) ->
  ~ In cur (Dict.keys d) ->
  transform self m d = Ok (set_fixed m, d).
Proof.
  intros Ht Hp Hnd Hcur.
  rewrite (transform_fixable self m d _ _ Ht Hp).
  pose proof (rebuild_absent cur new d [] Hnd Hcur) as H.
  rewrite app_nil_r in H. rewrite H; [reflexivity |]. intros k _ [].
Qed.

Lemma renamed_NoDup (cur new : string) d :
  NoDup (Dict.keys d) -> ~ In new (Dict.keys d) ->
  NoDup (Dict.keys (renamed cur new d)).
Proof.
  rewrite renamed_keys.
  induction d as [|[k v] d IH]; simpl; intros Hnd Hnew; [constructor |].
  apply NoDup_cons in Hnd as [Hk Hnd]. rewrite list_elem_of_In in Hk.
  apply NoDup_cons. split; [| apply IH; tauto].
  rewrite list_elem_of_In, in_map_iff. intros (k2 & E & Hin).
  destruct (String.eqb k2 cur) eqn:E2, (String.eqb k cur) eqn:E1;
    try apply String.eqb_eq in E1; try apply String.eqb_eq in E2; subst;
    tauto.
Qed.

Lemma parse_actions_set_fixed (m : MatchError) :
  parse_actions (set_fixed m) = parse_actions m.
Proof. reflexivity. Qed.

(** X16.  Applying the fix a second time, to the mapping and the finding
    the first application left, changes nothing. *)
Theorem transform_twice (self : rule) (m : MatchError) d (cur new : string) :
  In (tag m) fixable_tags ->
  parse_actions m = Ok (cur, new) ->
  NoDup (Dict.keys d) ->
  ~ In new (Dict.keys d) ->
  cur <> new ->
  exists m1 d1,
    transform self m d = Ok (m1, d1)
    /\ transform self m1 d1 = Ok (m1, d1).
Proof.
  intros Ht Hp Hnd Hnew Hne.
  exists (set_fixed m), (renamed cur new d). split.
  - rewrite (transform_fixable self m d _ _ Ht Hp).
    now rewrite rebuild_renames.
  - rewrite (transform_absent_key_still_flags self (set_fixed m)
               (renamed cur new d) cur new); try assumption.
    + reflexivity.
    + now apply renamed_NoDup.
    + rewrite renamed_keys, in_map_iff. intros (k & E & _).
      destruct (String.eqb k cur) eqn:E1; [congruence |].
      apply String.eqb_neq in E1. congruence.
Qed.

(** X17.  A [fqcn[action-core]] finding whose message has no opening
    parenthesis, or whose details have no backtick, makes the fix raise
    [IndexError]; the mapping has not been touched by then. *)
Theorem transform_raises_on_unreadable_texts (self : rule) (m : MatchError) d :
  tag m = "fqcn[action-core]" ->
  PyStr.contains "(" (message m) = false
  \/ PyStr.contains "`" (details m) = false ->
  transform self m d = Raise IndexError.
Proof.
  intros Ht H. unfold transform.
  rewrite bool_decide_eq_true_2
    by (rewrite Ht, list_elem_of_In; simpl; auto).
  unfold parse_actions. rewrite Ht. simpl.
  destruct H as [H|H].
  - now rewrite (split_last _ _ H).
  - rewrite (split_last _ _ H).
    unfold index.
    destruct (nth_error (PyStr.split "(" (message m)) 1); reflexivity.
Qed.

End TransformFacts.

Lemma transform_ignores_other_tags_witness :
  let m := create_matcherror
             "Avoid `collections` keyword by using FQCN for all plugins, modules, roles and playbooks."
             EmptyString None (VInt 2) "fqcn[keyword]" in
  let d := [("hosts", VStr "all"); ("collections", VSeq [])] in
  transform (mkRule 0) m d = Ok (m, d).
Proof.
  apply (transform_ignores_other_tags (mkRule 0)
           (create_matcherror
              "Avoid `collections` keyword by using FQCN for all plugins, modules, roles and playbooks."
              EmptyString None (VInt 2) "fqcn[keyword]")
           [("hosts", VStr "all"); ("collections", VSeq [])]).
  simpl. intros [H|[H|[H|[]]]]; discriminate.
Defined.

Lemma transform_never_fails_nor_grows_witness :
  let m := create_matcherror "Use FQCN for builtin module actions (shell)."
             "Use `ansible.builtin.shell` or `ansible.legacy.shell` instead."
             None (VInt 5) "fqcn[action-core]" in
  let d := [("shell", VStr "echo hi"); ("ansible.builtin.shell", VStr "echo ho")] in
  exists m' d',
    transform (mkRule 0) m d = Ok (m', d')
    /\ length d' <= length d
    /\ (forall x, In x (map snd d') -> In x (map snd d))
    /\ (d <> [] -> d' <> []).
Proof.
  exact (transform_never_fails_nor_grows (mkRule 0)
           (create_matcherror "Use FQCN for builtin module actions (shell)."
              "Use `ansible.builtin.shell` or `ansible.legacy.shell` instead."
              None (VInt 5) "fqcn[action-core]")
           [("shell", VStr "echo hi");
            ("ansible.builtin.shell", VStr "echo ho")]
           "shell" "ansible.builtin.shell" eq_refl).
Defined.

Lemma transform_absent_key_still_flags_witness :
  let m := create_matcherror "Use FQCN for builtin module actions (shell)."
             "Use `ansible.builtin.shell` or `ansible.legacy.shell` instead."
             None (VInt 5) "fqcn[action-core]" in
  let d := [("name", VStr "say hi"); ("action", VStr "shell echo hi")] in
  transform (mkRule 0) m d = Ok (set_fixed m, d).
Proof.
  apply (transform_absent_key_still_flags (mkRule 0)
           (create_matcherror "Use FQCN for builtin module actions (shell)."
              "Use `ansible.builtin.shell` or `ansible.legacy.shell` instead."
              None (VInt 5) "fqcn[action-core]")
           [("name", VStr "say hi"); ("action", VStr "shell echo hi")]
           "shell" "ansible.builtin.shell").
  - simpl. auto.
  - reflexivity.
  - apply (bool_decide_unpack _). vm_compute. exact I.
  - simpl. intros [H|[H|[]]]; discriminate.
Defined.

Lemma transform_twice_witness :
  let m := create_matcherror "Use FQCN for builtin module actions (shell)."
             "Use `ansible.builtin.shell` or `ansible.legacy.shell` instead."
             None (VInt 5) "fqcn[action-core]" in
  let d := [("name", VStr "say hi"); ("shell", VStr "echo hi")] in
  exists m1 d1,
    transform (mkRule 0) m d = Ok (m1, d1)
    /\ transform (mkRule 0) m1 d1 = Ok (m1, d1).
Proof.
  apply (transform_twice (mkRule 0)
           (create_matcherror "Use FQCN for builtin module actions (shell)."
              "Use `ansible.builtin.shell` or `ansible.legacy.shell` instead."
              None (VInt 5) "fqcn[action-core]")
           [("name", VStr "say hi"); ("shell", VStr "echo hi")]
           "shell" "ansible.builtin.shell").
  - simpl. auto.
  - reflexivity.
  - apply (bool_decide_unpack _). vm_compute. exact I.
  - simpl. intros [H|[H|[]]]; discriminate.
  - discriminate.
Defined.

Lemma transform_raises_on_unreadable_texts_witness :
  transform (mkRule 0)
    (create_matcherror "Use FQCN for builtin module actions."
       "Use `ansible.builtin.shell` or `ansible.legacy.shell` instead."
       None (VInt 5) "fqcn[action-core]")
    [("shell", VStr "echo hi")]
  = Raise IndexError.
Proof.
  apply (transform_raises_on_unreadable_texts (mkRule 0)
           (create_matcherror "Use FQCN for builtin module actions."
              "Use `ansible.builtin.shell` or `ansible.legacy.shell` instead."
              None (VInt 5) "fqcn[action-core]")
           [("shell", VStr "echo hi")]).
  - reflexivity.
  - left. reflexivity.
Defined.

(** ** [config.py] *)

Section ConfigFacts.

Import Config.

Lemma get_present {V} (k : string) (d : list (string * V)) :
  Dict.mem k d = true -> exists v, Dict.get k d = Ok v.
Proof.
  induction d as [|[k' v] d IH]; simpl; [discriminate |].
  destruct (String.eqb k' k); simpl; [eauto | exact IH].
Qed.

(** X18.  [get_rule_config] raises exactly when [options.rules] holds,
    under the rule's id, a value that is not a mapping; for an id that is
    not configured it returns the empty configuration instead of raising. *)
Theorem get_rule_config_raises_iff_not_mapping (py_str : value -> string)
    (rules : list (string * value)) (rule_id : string) :
  ((exists msg, get_rule_config py_str rules rule_id = inl (RuntimeError msg))
   <-> exists v, Dict.get rule_id rules = Ok v /\ forall m, v <> VMap m)
  /\ (Dict.mem rule_id rules = false ->
      get_rule_config py_str rules rule_id = inr []).
Proof.
  unfold get_rule_config, get_or. split; [split |].
  - intros [msg H].
    destruct (Dict.get rule_id rules) as [v|e]; [| discriminate].
    exists v. split; [reflexivity |]. intros m ->. discriminate.
  - intros (v & -> & Hv). destruct v; eauto. now destruct (Hv m).
  - intros H. now rewrite (get_missing _ _ H).
Qed.

Lemma first_call_decides (environ : gmap string string) :
  ansible_collections_path_body environ
  = if bool_decide (is_Some (environ !! "ANSIBLE_COLLECTIONS_PATHS"))
    then "ANSIBLE_COLLECTIONS_PATHS" else "ANSIBLE_COLLECTIONS_PATH".
Proof.
  unfold ansible_collections_path_body. simpl.
  repeat case_bool_decide; reflexivity.
Qed.

Lemma calls_after_first (environs : list (gmap string string)) (r : string) :
  ansible_collections_path_calls environs (Some r)
  = repeat r (length environs).
Proof.
  induction environs as [|e environs IH]; simpl; [reflexivity |].
  now rewrite IH.
Qed.

(** X19.  Across the calls of a process, [ansible_collections_path] gives
    the same answer every time, whatever the environment has become in the
    meantime: the old name [ANSIBLE_COLLECTIONS_PATHS] if that variable was
    set at the first call, the new name otherwise, also when neither
    variable is set. *)
Theorem ansible_collections_path_fixed_by_first_call
    (environ : gmap string string) (later : list (gmap string string)) :
  ansible_collections_path_calls (environ :: later) None
  = repeat (if bool_decide (is_Some (environ !! "ANSIBLE_COLLECTIONS_PATHS"))
            then "ANSIBLE_COLLECTIONS_PATHS" else "ANSIBLE_COLLECTIONS_PATH")
      (S (length later)).
Proof.
  simpl. rewrite calls_after_first, first_call_decides. reflexivity.
Qed.

(** X20.  [in_venv] answers no exactly when [sys] has no [real_prefix],
    [CONDA_EXE] is not in the environment, and [sys.base_prefix] is missing
    or equal to [sys.prefix]. *)
Theorem in_venv_false_iff (sys : sys_module) (environ : gmap string string) :
  in_venv sys environ = false
  <-> real_prefix sys = None /\ environ !! "CONDA_EXE" = None
      /\ (base_prefix sys = None \/ base_prefix sys = Some (prefix sys)).
Proof.
  unfold in_venv.
  destruct (real_prefix sys) as [r|]; simpl.
  { split; [discriminate | intros [? _]; discriminate]. }
  destruct (environ !! "CONDA_EXE") as [c|]; simpl.
  { split; [discriminate | intros (_ & ? & _); discriminate]. }
  destruct (base_prefix sys) as [b|].
  - rewrite negb_false_iff, String.eqb_eq. split.
    + intros ->. auto.
    + intros (_ & _ & [H|H]); [discriminate | now injection H].
  - rewrite String.eqb_refl. simpl. split; auto.
Qed.

Lemma any_path_true (paths : list string) : any_path paths true = true.
Proof. induction paths; simpl; auto. Qed.

Lemma any_path_nonempty (paths : list string) :
  any_path paths false = true <-> paths <> [].
Proof.
  destruct paths as [|p paths]; simpl.
  - split; [discriminate | intros H; now destruct H].
  - rewrite any_path_true. split; [discriminate | reflexivity].
Qed.

(** X21.  [guess_install_method] returns a command, rather than the empty
    string, exactly when pip found the distribution with at least one
    uninstallation path and the installation is a virtualenv or lies under
    the user's [~/.local/lib]; the command is the plain [pip install] in a
    virtualenv, which takes precedence, and the [--user] one otherwise. *)
Theorem guess_install_method_command_iff (sys : sys_module)
    (environ : gmap string string) (file user_lib : string)
    (probe : pip_probe) (cmd : string) :
  (snd (guess_install_method sys environ file user_lib probe) = inr cmd
   /\ cmd <> EmptyString)
  <-> (exists dist path paths, probe = ProbeDist dist (path :: paths))
      /\ ((in_venv sys environ = true
           /\ cmd = "pip install --upgrade ansible-lint")
          \/ (in_venv sys environ = false
              /\ PyStr.startswith file user_lib = true
              /\ cmd = "pip3 install --user --upgrade ansible-lint")).
Proof.
  unfold guess_install_method. split.
  - intros [H Hne].
    destruct probe as [dist paths| |found exc|found exc].
    + destruct paths as [|p paths].
      * destruct (in_venv sys environ);
          [| destruct (PyStr.startswith file user_lib)];
          simpl in H; injection H as <-; now destruct Hne.
      * split; [eauto |].
        destruct (in_venv sys environ);
          [| destruct (PyStr.startswith file user_lib)];
          simpl in H; rewrite any_path_true in H; injection H as <-; auto.
        now destruct Hne.
    + destruct (in_venv sys environ);
        [| destruct (PyStr.startswith file user_lib)];
        simpl in H; injection H as <-; now destruct Hne.
    + destruct (in_venv sys environ);
        [| destruct (PyStr.startswith file user_lib)];
        simpl in H; injection H as <-; now destruct Hne.
    + destruct (in_venv sys environ);
        [| destruct (PyStr.startswith file user_lib)];
        simpl in H; discriminate.
  - intros [(dist & p & paths & ->) [[Hv ->]|(Hv & Hu & ->)]];
      rewrite Hv, ?Hu; simpl; rewrite any_path_true;
      split; [reflexivity | discriminate | reflexivity | discriminate].
Qed.

(** X22.  An [AttributeError] inside pip never leaves
    [guess_install_method]: the function logs it on the root logger and
    returns the empty string.  The only exceptions that leave it are the
    other ones pip raises. *)
Theorem guess_install_method_swallows_attribute_error (sys : sys_module)
    (environ : gmap string string) (file user_lib : string)
    (probe : pip_probe) :
  (forall found exc,
     probe = ProbeAttributeError found exc ->
     snd (guess_install_method sys environ file user_lib probe)
     = inr EmptyString
     /\ last (fst (guess_install_method sys environ file user_lib probe))
        = Some (RootDebug exc))
  /\ (forall exc,
        snd (guess_install_method sys environ file user_lib probe) = inl exc
        <-> exists found, probe = ProbeOtherError found exc).
Proof.
  unfold guess_install_method. split.
  - intros found exc ->.
    destruct found;
      (destruct (in_venv sys environ);
       [| destruct (PyStr.startswith file user_lib)]);
      split; reflexivity.
  - intros exc. split.
    + intros H. destruct probe as [dist paths| |found e|found e];
        destruct (in_venv sys environ);
        try destruct (PyStr.startswith file user_lib);
        simpl in H; try discriminate; injection H as <-; eauto.
    + intros [found ->].
      destruct (in_venv sys environ);
        [| destruct (PyStr.startswith file user_lib)]; reflexivity.
Qed.

End ConfigFacts.

(** ** The fix and the evaluation that follows it *)

Section RenamedKey.
Context {V : Type}.
Implicit Types (d pre post : list (string * V)).








End RenamedKey.

Section IdempotentFix.

Variable resolved_fqcn : string -> option string.

(** What the loader answers is canonical: asking again for an answer does
    not lead to yet another name. *)
Hypothesis resolved_is_canonical :
  forall name target target',
    resolved_fqcn name = Some target ->
    resolved_fqcn target = Some target' -> target' = target.


End IdempotentFix.



(** ** A task without its line number *)

Section MissingLine.

Variable resolved_fqcn : string -> option string.

Lemma get_raises {V} (k : string) (d : list (string * V)) (e : exn) :
  Dict.get k d = Raise e -> e = KeyError k.
Proof.
  induction d as [|[k' v] d IH]; simpl; [now intros [= <-] |].
  destruct (String.eqb k' k); [discriminate | exact IH].
Qed.

(** Reading the action name never fails on the line-number key. *)
Lemma task_module_not_line (task : list (string * value)) :
  task_module task <> Raise (KeyError "__line__").
Proof.
  unfold task_module.
  destruct (Dict.get "action" task) as [v|e] eqn:Ea.
  - destruct v; try discriminate.
    destruct (Dict.get "__ansible_module_original__" m) as [v|e] eqn:Em.
    + destruct v; discriminate.
    + apply get_raises in Em as ->. discriminate.
  - apply get_raises in Ea as ->. discriminate.
Qed.

(** [report] looks at the task only for its line number, and only when it
    is about to make a finding. *)
Lemma report_line (file : option Lintable) (module alias : string) :
  (forall task, report task file module alias = Ok [])
  \/ exists msg det tg,
       forall task,
         report task file module alias
         = Dict.get "__line__" task
           ≫= (fun lineno => Ok [create_matcherror msg det file lineno tg]).
Proof.
  unfold report.
  destruct (negb (String.eqb module alias)); [| now left].
  destruct (PyStr.startswith alias "ansible.builtin").
  - destruct (negb _); [| now left]. right. eauto.
  - destruct (Nat.ltb _ 2); [right; eauto |].
    destruct (negb _ || _); [right; eauto | now left].
Qed.

Lemma resolves_to_unique (w : world) (module a b : string) :
  resolves_to resolved_fqcn w module a ->
  resolves_to resolved_fqcn w module b -> a = b.
Proof.
  unfold resolves_to. destruct (module_aliases w !! module); congruence.
Qed.

(** X8.  For a task without a [__line__] key: the call raises [KeyError]
    for that key exactly when a finding is due, that is, when the same task
    with a line number gets a finding, whichever of the three tags it
    carries; and the state it leaves is the one the call on the task with a
    line number leaves, so the loader has been asked and the alias is in
    the cache by the time it raises. *)
Theorem missing_line_raises_after_caching (self : rule)
    (task : list (string * value)) (file : option Lintable) (w : world)
    (line : value) :
  Dict.mem "__line__" task = false ->
  let with_line := ("__line__", line) :: task in
  let w' := snd (matchtask resolved_fqcn self task file w) in
  (fst (matchtask resolved_fqcn self task file w) = Raise (KeyError "__line__")
   <-> exists f, fst (matchtask resolved_fqcn self with_line file w) = Ok [f])
  /\ w' = snd (matchtask resolved_fqcn self with_line file w)
  /\ forall module,
       task_module task = Ok module ->
       is_Some (module_aliases w' !! module)
       /\ (module_aliases w !! module = None ->
           loader_calls w' = loader_calls w ++ [module]).
Proof.
  intros Hl with_line w'.
  assert (Hsame : task_module with_line = task_module task) by reflexivity.
  assert (Hget : Dict.get "__line__" with_line = Ok line) by reflexivity.
  split; [| split].
  - destruct (task_module task) as [module|e] eqn:Hm.
    + destruct (matchtask_result resolved_fqcn self task file w module Hm)
        as [(Hn & Hc & E)|(alias & Hr & E)].
      * rewrite E.
        assert (E' : fst (matchtask resolved_fqcn self with_line file w)
                     = Ok []).
        { rewrite (matchtask_eq _ _ _ _ _ _ Hsame), resolve_module_eq, Hc, Hn.
          reflexivity. }
        rewrite E'. split; [discriminate | intros [f H]; discriminate].
      * rewrite E.
        destruct (matchtask_resolved resolved_fqcn self with_line file w
                    module alias Hsame Hr) as [E' _].
        rewrite E'.
        destruct (report_line file module alias) as [H|(msg & det & tg & H)].
        -- rewrite !H. split; [discriminate | intros [f Hf]; discriminate].
        -- rewrite !H, Hget, (get_missing _ _ Hl). simpl.
           split; [eauto | reflexivity].
    + rewrite (matchtask_no_module _ _ _ _ _ _ Hm).
      rewrite (matchtask_no_module _ self with_line file w e)
        by (now rewrite Hsame).
      simpl. split.
      * intros [= ->]. now destruct (task_module_not_line task).
      * intros [f H]. discriminate.
  - subst w'. rewrite !matchtask_world. now rewrite Hsame.
  - intros module Hm.
    destruct (matchtask_step resolved_fqcn self task file w)
      as (_ & Hsome & Hcalls & _).
    fold w' in Hsome, Hcalls. split; [now apply Hsome |].
    intros Hc. now rewrite Hcalls, Hm, Hc.
Qed.

End MissingLine.

(** One task for each of the three tags, each without its line number. *)
Lemma missing_line_raises_after_caching_witness :
  let no_line (module : string) : list (string * value) :=
    [("action", VMap [("__ansible_module_original__", VStr module)])] in
  (fst (matchtask example_loader (mkRule 0) (no_line "yum") None
          initial_world)
   = Raise (KeyError "__line__")
   <-> exists f,
         fst (matchtask example_loader (mkRule 0)
                (("__line__", VInt 3) :: no_line "yum") None initial_world)
         = Ok [f])
  /\ (fst (matchtask example_loader (mkRule 0) (no_line "docker_container")
             None initial_world)
      = Raise (KeyError "__line__")
      <-> exists f,
            fst (matchtask example_loader (mkRule 0)
                   (("__line__", VInt 3) :: no_line "docker_container") None
                   initial_world)
            = Ok [f])
  /\ (fst (matchtask example_loader (mkRule 0)
             (no_line "community.network.docker_container") None
             initial_world)
      = Raise (KeyError "__line__")
      <-> exists f,
            fst (matchtask example_loader (mkRule 0)
                   (("__line__", VInt 3)
                    :: no_line "community.network.docker_container") None
                   initial_world)
            = Ok [f]).
Proof.
  simpl. split; [| split].
  - exact (proj1 (missing_line_raises_after_caching example_loader (mkRule 0)
                    [("action",
                      VMap [("__ansible_module_original__", VStr "yum")])]
                    None initial_world (VInt 3) eq_refl)).
  - exact (proj1 (missing_line_raises_after_caching example_loader (mkRule 0)
                    [("action",
                      VMap [("__ansible_module_original__",
                             VStr "docker_container")])]
                    None initial_world (VInt 3) eq_refl)).
  - exact (proj1 (missing_line_raises_after_caching example_loader (mkRule 0)
                    [("action",
                      VMap [("__ansible_module_original__",
                             VStr "community.network.docker_container")])]
                    None initial_world (VInt 3) eq_refl)).
Defined.

(** The three calls of the witness do raise. *)
Example missing_line_raises_for_each_tag :
  let no_line (module : string) : list (string * value) :=
    [("action", VMap [("__ansible_module_original__", VStr module)])] in
  map (fun module =>
         fst (matchtask example_loader (mkRule 0) (no_line module) None
                initial_world))
    ["yum"; "docker_container"; "community.network.docker_container"]
  = [Raise (KeyError "__line__"); Raise (KeyError "__line__");
     Raise (KeyError "__line__")].
Proof. vm_compute. reflexivity. Qed.
